(** * DeScarGAN models: layer composition and shape contracts

    A shallow embedding of [anomaly_toolbox/models/descargan.py].

    The module builds Keras layer objects and wires them into two models.
    Three kinds of facts are of interest: which layer objects a constructor
    creates (and which of them are shared), which calls a forward pass makes,
    and which tensor shapes flow through it.  Accordingly

    - construction runs in a state-and-exception monad [Build] whose state is
      the model object under construction ([self]) together with the next
      unused object identity;
    - a tensor of activations is represented by its run-time shape, a list
      of dimensions; a label tensor by the list of its integer entries;
    - a forward pass runs in a writer-and-exception monad [Fwd] recording the
      calls the method body makes to its blocks and to
      [DeScarGANModel.concat]. *)

From Stdlib Require Import ZArith List Bool Lia QArith String.
Import ListNotations.
Open Scope Z_scope.

Set Implicit Arguments.
Set Warnings "-register-all".

(** ** Exceptions and results *)

Inductive Exn : Type :=
| TypeError              (* calling a function with a missing argument *)
| ValueError             (* Keras input-compatibility check *)
| InvalidArgumentError.  (* TensorFlow op shape check *)

Inductive result (A : Type) : Type :=
| Ok (a : A)
| Raise (e : Exn).

Arguments Ok {A} a.
Arguments Raise {A} e.

Definition ObjId := nat.

(** ** Keras objects *)

Inductive InitializerKind : Type := HeNormal | GlorotNormal | Zeros.

(** An initializer instance: the identity of the Python object and its class. *)
Record Initializer : Type := mkInitializer {
  init_id : ObjId;
  init_kind : InitializerKind
}.

Inductive Padding : Type := SAME | VALID.

(** The values passed for [activation_fn] in this module: a layer class and
    two plain functions. *)
Inductive ActivationFn : Type :=
| k_layers_ReLU
| k_activations_tanh
| tf_identity.

(** A static shape as written in the source: [None] is the wildcard. *)
Definition StaticShape := list (option Z).

(** A run-time shape. *)
Definition Shape := list Z.

(** Layer objects.  Every layer carries the identity given to it when it was
    constructed; a keyword that the source does not pass is [None] where
    the library default is itself an object (the initializers). *)
Inductive Layer : Type :=
| Conv2D (id : ObjId) (input_shape : option StaticShape)
         (filters kernel_size strides : Z) (padding : Padding)
         (kernel_initializer bias_initializer : option Initializer)
         (use_bias : bool)
| Conv2DTranspose (id : ObjId) (input_shape : option StaticShape)
         (filters kernel_size strides : Z) (padding : Padding)
| BatchNormalization (id : ObjId) (momentum : Q)
| ReLU (id : ObjId)
| MaxPool2D (id : ObjId)
| UpSampling2D (id : ObjId)
| Flatten (id : ObjId)
| Dense (id : ObjId) (input_shape : option StaticShape) (units : Z)
| Dropout (id : ObjId) (rate : Q)
| Sequential (id : ObjId) (layers : list Layer).

Definition layer_id (l : Layer) : ObjId :=
  match l with
  | Conv2D i _ _ _ _ _ _ _ _ => i
  | Conv2DTranspose i _ _ _ _ _ => i
  | BatchNormalization i _ => i
  | ReLU i => i
  | MaxPool2D i => i
  | UpSampling2D i => i
  | Flatten i => i
  | Dense i _ _ => i
  | Dropout i _ => i
  | Sequential i _ => i
  end.

(** ** State and exceptions *)

Definition M (S A : Type) : Type := S -> result (A * S).

Definition ret {S A} (a : A) : M S A := fun s => Ok (a, s).

Definition bind {S A B} (m : M S A) (k : A -> M S B) : M S B :=
  fun s => match m s with
           | Ok (a, s') => k a s'
           | Raise e => Raise e
           end.

Definition raise {S A} (e : Exn) : M S A := fun _ => Raise e.

Definition lift {S A} (r : result A) : M S A :=
  fun s => match r with
           | Ok a => Ok (a, s)
           | Raise e => Raise e
           end.

Declare Scope monad_scope.
Delimit Scope monad_scope with monad.
Notation "x <- m ;; k" := (bind m (fun x => k))
  (at level 61, m at next level, right associativity) : monad_scope.
Notation "m ;; k" := (bind m (fun _ => k))
  (at level 61, right associativity) : monad_scope.
Open Scope monad_scope.

(** ** The construction monad *)

(** The fields [DeScarGANModel.__init__] sets on [self], and the allocator. *)
Record Self : Type := mkSelf {
  fresh : ObjId;
  _batch_norm : bool;
  _kernel_initializer : option Initializer;
  _bias_initializer : option Initializer
}.

Definition Build : Type -> Type := M Self.

(** Creating a Python object: take the next identity. *)
Definition new : Build ObjId :=
  fun s => Ok (fresh s, mkSelf (S (fresh s)) (_batch_norm s)
                               (_kernel_initializer s) (_bias_initializer s)).

Definition get_batch_norm : Build bool := fun s => Ok (_batch_norm s, s).

Definition get_kernel_initializer : Build (option Initializer) :=
  fun s => Ok (_kernel_initializer s, s).

Definition get_bias_initializer : Build (option Initializer) :=
  fun s => Ok (_bias_initializer s, s).

Definition set_kernel_initializer (i : Initializer) : Build unit :=
  fun s => Ok (tt, mkSelf (fresh s) (_batch_norm s) (Some i) (_bias_initializer s)).

Definition set_bias_initializer (i : Initializer) : Build unit :=
  fun s => Ok (tt, mkSelf (fresh s) (_batch_norm s) (_kernel_initializer s) (Some i)).

Definition new_initializer (k : InitializerKind) : Build Initializer :=
  i <- new ;; ret (mkInitializer i k).

(** [activation_fn()]: the call with no argument.  A layer class yields a
    new layer; [k.activations.tanh] and [tf.identity] are functions of one
    required argument, so the call raises [TypeError]. *)
Definition call0 (activation_fn : ActivationFn) : Build Layer :=
  match activation_fn with
  | k_layers_ReLU => i <- new ;; ret (ReLU i)
  | k_activations_tanh => raise TypeError
  | tf_identity => raise TypeError
  end.

Definition new_Sequential (layers : list Layer) : Build Layer :=
  i <- new ;; ret (Sequential i layers).

(** ** Shapes computed by the layers

    The shape rules are those of the Keras layers' [compute_output_shape]
    and of the TensorFlow ops, for channels-last data. *)

(** Keras [conv_utils.conv_output_length], without dilation. *)
Definition conv_output_length (input_length filter_size : Z) (padding : Padding)
    (stride : Z) : Z :=
  let output_length :=
    match padding with
    | SAME => input_length
    | VALID => input_length - filter_size + 1
    end in
  (output_length + stride - 1) / stride.

(** Keras [conv_utils.deconv_output_length], without output padding. *)
Definition deconv_output_length (input_length filter_size : Z) (padding : Padding)
    (stride : Z) : Z :=
  match padding with
  | SAME => input_length * stride
  | VALID => input_length * stride + Z.max (filter_size - stride) 0
  end.

Definition product (dims : list Z) : Z := fold_right Z.mul 1 dims.

(** Whether a run-time shape (without its batch dimension) agrees with a
    declared static shape. *)
Fixpoint compatible (declared : StaticShape) (actual : Shape) : bool :=
  match declared, actual with
  | [], [] => true
  | None :: ds, _ :: xs => compatible ds xs
  | Some d :: ds, x :: xs => (d =? x) && compatible ds xs
  | _, _ => false
  end.

(** The input shape a model built from a list of layers is created with:
    that of the first layer of the deepest model, as Keras'
    [get_input_shape_and_dtype] finds it. *)
Fixpoint declared_input (l : Layer) : option StaticShape :=
  match l with
  | Conv2D _ input_shape _ _ _ _ _ _ _ => input_shape
  | Conv2DTranspose _ input_shape _ _ _ _ => input_shape
  | Dense _ input_shape _ => input_shape
  | Sequential _ (first :: _) => declared_input first
  | _ => None
  end.

Definition check_input (declared : option StaticShape) (x : Shape) : result Shape :=
  match declared with
  | None => Ok x
  | Some d =>
      match x with
      | _ :: dims => if compatible d dims then Ok x else Raise ValueError
      | [] => Raise ValueError
      end
  end.

Definition then_ {A B} (r : result A) (k : A -> result B) : result B :=
  match r with
  | Ok a => k a
  | Raise e => Raise e
  end.

(** The shape a layer returns for an input of shape [x]. *)
Fixpoint call_layer (l : Layer) (x : Shape) : result Shape :=
  match l with
  | Conv2D _ _ filters kernel_size strides padding _ _ _ =>
      match x with
      | [n; h; w; _] =>
          Ok [n; conv_output_length h kernel_size padding strides;
                 conv_output_length w kernel_size padding strides; filters]
      | _ => Raise ValueError
      end
  | Conv2DTranspose _ _ filters kernel_size strides padding =>
      match x with
      | [n; h; w; _] =>
          Ok [n; deconv_output_length h kernel_size padding strides;
                 deconv_output_length w kernel_size padding strides; filters]
      | _ => Raise ValueError
      end
  | BatchNormalization _ _ => Ok x
  | ReLU _ => Ok x
  | MaxPool2D _ =>
      match x with
      | [n; h; w; c] =>
          Ok [n; conv_output_length h 2 VALID 2; conv_output_length w 2 VALID 2; c]
      | _ => Raise ValueError
      end
  | UpSampling2D _ =>
      match x with
      | [n; h; w; c] => Ok [n; 2 * h; 2 * w; c]
      | _ => Raise ValueError
      end
  | Flatten _ =>
      match x with
      | n :: dims => Ok [n; product dims]
      | [] => Raise ValueError
      end
  | Dense _ _ units =>
      match rev x with
      | _ :: (_ :: _) as front => Ok (rev front ++ [units])
      | _ => Raise ValueError
      end
  | Dropout _ _ => Ok x
  | Sequential _ layers =>
      then_ (check_input (declared_input l) x)
            (fun x =>
               (fix go (ls : list Layer) (x : Shape) : result Shape :=
                  match ls with
                  | [] => Ok x
                  | l' :: ls' => then_ (call_layer l' x) (go ls')
                  end) layers x)
  end.

(** ** TensorFlow ops on shapes *)

Fixpoint dims_eqb (a b : Shape) : bool :=
  match a, b with
  | [], [] => true
  | x :: a', y :: b' => (x =? y) && dims_eqb a' b'
  | _, _ => false
  end.

(** [tf.concat([a, b], axis=-1)]: the ranks and all dimensions but the last
    must agree. *)
Definition tf_concat (a b : Shape) : result Shape :=
  match rev a, rev b with
  | ca :: front_a, cb :: front_b =>
      if dims_eqb front_a front_b
      then Ok (rev front_a ++ [ca + cb])
      else Raise InvalidArgumentError
  | _, _ => Raise InvalidArgumentError
  end.

(** [tf.shape(x)[i]]. *)
Definition tf_shape_at (x : Shape) (i : nat) : result Z :=
  match nth_error x i with
  | Some d => Ok d
  | None => Raise InvalidArgumentError
  end.

(** [tf.tile(x, multiples)]. *)
Fixpoint tf_tile (x multiples : Shape) : result Shape :=
  match x, multiples with
  | [], [] => Ok []
  | d :: x', m :: ms => then_ (tf_tile x' ms) (fun r => Ok (d * m :: r))
  | _, _ => Raise InvalidArgumentError
  end.

(** [tf.one_hot(label, depth)] of a rank-1 label tensor. *)
Definition tf_one_hot (label : list Z) (depth : Z) : Shape :=
  [Z.of_nat (List.length label); depth].

(** [x[:, tf.newaxis, tf.newaxis, :]]. *)
Definition newaxis_1_2 (x : Shape) : result Shape :=
  match x with
  | n :: d :: rest => Ok (n :: 1 :: 1 :: d :: rest)
  | _ => Raise InvalidArgumentError
  end.

(** [tf.squeeze(x, axis=[1, 2])]. *)
Definition tf_squeeze_1_2 (x : Shape) : result Shape :=
  match x with
  | n :: h :: w :: rest =>
      if (h =? 1) && (w =? 1) then Ok (n :: rest) else Raise InvalidArgumentError
  | _ => Raise InvalidArgumentError
  end.

(** [tf.cast(label, tf.int32)] on an integer tensor: two's complement
    wrap-around into 32 bits. *)
Definition cast_int32 (v : Z) : Z := (v + 2 ^ 31) mod 2 ^ 32 - 2 ^ 31.

Definition tf_cast_int32 (label : list Z) : list Z := map cast_int32 label.

(** [tf.equal(scalar, tensor)], broadcasting the scalar. *)
Definition tf_equal (scalar : Z) (t : list Z) : list bool := map (Z.eqb scalar) t.

Definition tf_reduce_all (t : list bool) : bool := forallb (fun b => b) t.

(** ** The forward-pass monad *)

(** What a forward pass is seen to do: the calls its body makes, in order. *)
Inductive Event : Type :=
| Called (layer : ObjId) (input output : Shape)
| Concatenated (upsampled bypass output : Shape).

Definition Fwd : Type -> Type := M (list Event).

Definition emit (e : Event) : Fwd unit := fun tr => Ok (tt, tr ++ [e]).

(** [layer(x, training=training)].  The shape of the result does not depend
    on [training]. *)
Definition invoke (l : Layer) (x : Shape) (training : option bool) : Fwd Shape :=
  y <- lift (call_layer l x) ;;
  emit (Called (layer_id l) x y) ;;
  ret y.

(** [tf.cond(pred, true_fn, false_fn)]. *)
Definition tf_cond {A} (pred : bool) (true_fn false_fn : unit -> Fwd A) : Fwd A :=
  if pred then true_fn tt else false_fn tt.

(** ** class DeScarGANModel *)

Module DeScarGANModel.

(** The two abstract properties. *)
Class properties : Type := {
  kernel_initializer : Build Initializer;
  bias_initializer : Build Initializer
}.

Definition __init__ (batch_norm : bool) (o : ObjId) : Self :=
  mkSelf o batch_norm None None.

Definition default_momentum : Q := 1 # 100.

Section Methods.
Context `{P : properties}.

(** The argument of [k.Sequential] parses as
    [(A + B) if self._batch_norm else ([] + C)]: the conditional
    expression binds weaker than [+]. *)
Definition conv (input_shape : StaticShape) (filters kernel_size : Z)
    (momentum : Q) (activation_fn : ActivationFn) : Build Layer :=
  batch_norm <- get_batch_norm ;;
  layers <-
    (if batch_norm
     then
       ki <- kernel_initializer ;;
       bi <- bias_initializer ;;
       batch_norm' <- get_batch_norm ;;
       c <- new ;;
       b <- new ;;
       ret ([Conv2D c (Some input_shape) filters kernel_size 1 SAME
                    (Some ki) (Some bi) (negb batch_norm')]
            ++ [BatchNormalization b momentum])
     else
       a <- call0 activation_fn ;;
       ret ([] ++ [a])) ;;
  new_Sequential layers.

(** [conv] with the defaults [kernel_size=3], [momentum=0.01]. *)
Definition conv_relu (input_shape : StaticShape) (filters : Z) : Build Layer :=
  conv input_shape filters 3 default_momentum k_layers_ReLU.

End Methods.

Definition deconv (input_shape : StaticShape) (filters : Z) (use_upsample : bool)
    (kernel_size strides : Z) (padding : Padding) (momentum : Q)
    (activation_fn : ActivationFn) : Build Layer :=
  up_layer <-
    (if use_upsample
     then
       u <- new ;;
       c <- new ;;
       new_Sequential [UpSampling2D u;
                       Conv2D c (Some input_shape) filters 3 1 SAME None None true]
     else
       t <- new ;;
       ret (Conv2DTranspose t (Some input_shape) filters kernel_size strides padding)) ;;
  b <- new ;;
  a <- call0 activation_fn ;;
  new_Sequential [up_layer; BatchNormalization b momentum; a].

(** [deconv] with all its defaults. *)
Definition deconv_default (input_shape : StaticShape) (filters : Z) : Build Layer :=
  deconv input_shape filters true 4 2 SAME default_momentum k_layers_ReLU.

Definition concat (upsampled bypass : Shape) : Fwd Shape :=
  y <- lift (tf_concat upsampled bypass) ;;
  emit (Concatenated upsampled bypass y) ;;
  ret y.

Definition dense (input_shape : StaticShape) (units : Z) (momentum : Q)
    (activation_fn : ActivationFn) : Build Layer :=
  d <- new ;;
  b <- new ;;
  a <- call0 activation_fn ;;
  new_Sequential [Dense d (Some input_shape) units; BatchNormalization b momentum; a].

End DeScarGANModel.

(** The branch predicate of both models:
    [tf.reduce_all(tf.equal(self._ill_label, tf.cast(label, tf.int32)))]. *)
Definition all_ill (ill_label : Z) (label : list Z) : bool :=
  tf_reduce_all (tf_equal ill_label (tf_cast_int32 label)).

(** ** class Generator *)

Module Generator.
Import DeScarGANModel.

Record t : Type := mk {
  _ill_label : Z;
  _c_dim : Z;
  _down0 : Layer;
  _down1 : Layer;
  _down2 : Layer;
  _down3 : Layer;
  _up3 : Layer;
  _conv5 : Layer;
  _up2 : Layer;
  _conv6 : Layer;
  _up1 : Layer;
  _conv7_ill : Layer;
  _conv7_healty : Layer
}.

Definition kernel_initializer : Build Initializer :=
  cached <- get_kernel_initializer ;;
  match cached with
  | None =>
      i <- new_initializer HeNormal ;;
      set_kernel_initializer i ;;
      ret i
  | Some i => ret i
  end.

Definition bias_initializer : Build Initializer :=
  cached <- get_bias_initializer ;;
  match cached with
  | None =>
      i <- new_initializer Zeros ;;
      set_bias_initializer i ;;
      ret i
  | Some i => ret i
  end.

#[export] Instance model : properties :=
  {| DeScarGANModel.kernel_initializer := kernel_initializer;
     DeScarGANModel.bias_initializer := bias_initializer |}.

Definition build (ill_label n_channels nf : Z) : Build t :=
  let c_dim := 2 in
  c1 <- conv_relu [None; None; Some (n_channels + c_dim)] nf ;;
  c2 <- conv_relu [None; None; Some nf] nf ;;
  down0 <- new_Sequential [c1; c2] ;;
  p <- new ;;
  c1 <- conv_relu [None; None; Some nf] (nf * 2) ;;
  c2 <- conv_relu [None; None; Some (nf * 2)] (nf * 2) ;;
  down1 <- new_Sequential [MaxPool2D p; c1; c2] ;;
  p <- new ;;
  c1 <- conv_relu [None; None; Some (nf * 2)] (nf * 4) ;;
  c2 <- conv_relu [None; None; Some (nf * 4)] (nf * 4) ;;
  down2 <- new_Sequential [MaxPool2D p; c1; c2] ;;
  p <- new ;;
  c1 <- conv_relu [None; None; Some (nf * 4)] (nf * 8) ;;
  c2 <- conv_relu [None; None; Some (nf * 8)] (nf * 8) ;;
  down3 <- new_Sequential [MaxPool2D p; c1; c2] ;;
  up3 <- deconv_default [None; None; Some (nf * 8)] (nf * 4) ;;
  c1 <- conv_relu [None; None; Some (nf * 8)] (nf * 4) ;;
  c2 <- conv_relu [None; None; Some (nf * 4)] (nf * 4) ;;
  conv5 <- new_Sequential [c1; c2] ;;
  up2 <- deconv_default [None; None; Some (nf * 4)] (nf * 2) ;;
  c1 <- conv_relu [None; None; Some (nf * 4)] (nf * 2) ;;
  c2 <- conv_relu [None; None; Some (nf * 2)] (nf * 2) ;;
  conv6 <- new_Sequential [c1; c2] ;;
  up1 <- deconv_default [None; None; Some (nf * 2)] nf ;;
  c1 <- conv_relu [None; None; Some nf] nf ;;
  c2 <- conv [None; None; Some nf] n_channels 3 default_momentum k_activations_tanh ;;
  conv7_ill <- new_Sequential [c1; c2] ;;
  c1 <- conv_relu [None; None; Some nf] nf ;;
  c2 <- conv [None; None; Some nf] n_channels 3 default_momentum k_activations_tanh ;;
  conv7_healty <- new_Sequential [c1; c2] ;;
  ret (mk ill_label c_dim down0 down1 down2 down3 up3 conv5 up2 conv6 up1
          conv7_ill conv7_healty).

(** [Generator(ill_label, n_channels=1, nf=64, batch_norm=True)], the
    allocator standing at [o]. *)
Definition __init__ (ill_label n_channels nf : Z) (batch_norm : bool) (o : ObjId)
    : result (t * Self) :=
  build ill_label n_channels nf (DeScarGANModel.__init__ batch_norm o).

Definition call (self : t) (x : Shape) (label : list Z) (training : bool)
    : Fwd Shape :=
  let one_hot_label := tf_one_hot label 2 in
  expanded <- lift (newaxis_1_2 one_hot_label) ;;
  height <- lift (tf_shape_at x 1) ;;
  width <- lift (tf_shape_at x 2) ;;
  condition <- lift (tf_tile expanded [1; height; width; 1]) ;;
  x <- lift (tf_concat x condition) ;;
  input_0 <- invoke (_down0 self) x (Some training) ;;
  input_1 <- invoke (_down1 self) input_0 (Some training) ;;
  input_2 <- invoke (_down2 self) input_1 (Some training) ;;
  input_3 <- invoke (_down3 self) input_2 (Some training) ;;
  input_upsampled_3 <- invoke (_up3 self) input_3 (Some training) ;;
  cat3 <- concat input_upsampled_3 input_2 ;;
  input_5 <- invoke (_conv5 self) cat3 (Some training) ;;
  input_upsampled_2 <- invoke (_up2 self) input_5 (Some training) ;;
  cat2 <- concat input_upsampled_2 input_1 ;;
  input_6 <- invoke (_conv6 self) cat2 (Some training) ;;
  input_upsampled_1 <- invoke (_up1 self) input_6 (Some training) ;;
  tf_cond (all_ill (_ill_label self) label)
          (fun _ => invoke (_conv7_ill self) input_upsampled_1 None)
          (fun _ => invoke (_conv7_healty self) input_upsampled_1 None).

End Generator.

(** ** class Discriminator *)

Module Discriminator.
Import DeScarGANModel.

Record t : Type := mk {
  _ill_label : Z;
  _encoder : Layer;
  _conv_ill : Layer;
  _conv_healty : Layer;
  _conv2 : Layer;
  _linearclass : Layer
}.

Definition kernel_initializer : Build Initializer :=
  cached <- get_kernel_initializer ;;
  match cached with
  | None =>
      i <- new_initializer GlorotNormal ;;
      set_kernel_initializer i ;;
      ret i
  | Some i => ret i
  end.

Definition bias_initializer : Build Initializer :=
  cached <- get_bias_initializer ;;
  match cached with
  | None =>
      i <- new_initializer Zeros ;;
      set_bias_initializer i ;;
      ret i
  | Some i => ret i
  end.

#[export] Instance model : properties :=
  {| DeScarGANModel.kernel_initializer := kernel_initializer;
     DeScarGANModel.bias_initializer := bias_initializer |}.

Definition build (ill_label n_channels nf : Z) : Build t :=
  e1 <- conv_relu [None; None; Some n_channels] nf ;;
  p1 <- new ;;
  e2 <- conv_relu [None; None; Some nf] (nf * 2) ;;
  p2 <- new ;;
  e3 <- conv_relu [None; None; Some (nf * 2)] (nf * 4) ;;
  e4 <- conv_relu [None; None; Some (nf * 4)] (nf * 4) ;;
  p3 <- new ;;
  e5 <- conv_relu [None; None; Some (nf * 4)] (nf * 8) ;;
  e6 <- conv_relu [None; None; Some (nf * 8)] (nf * 8) ;;
  p4 <- new ;;
  e7 <- conv_relu [None; None; Some (nf * 8)] (nf * 8) ;;
  e8 <- conv_relu [None; None; Some (nf * 8)] (nf * 8) ;;
  p5 <- new ;;
  e9 <- conv_relu [None; None; Some (nf * 8)] (nf * 16) ;;
  encoder <- new_Sequential
    [e1; MaxPool2D p1; e2; MaxPool2D p2; e3; e4; MaxPool2D p3; e5; e6;
     MaxPool2D p4; e7; e8; MaxPool2D p5; e9] ;;
  c1 <- conv_relu [None; None; Some (nf * 16)] (nf * 16) ;;
  c2 <- conv_relu [None; None; Some (nf * 16)] (nf * 16) ;;
  c3 <- conv [None; None; Some (nf * 16)] 1 1 default_momentum tf_identity ;;
  conv_ill <- new_Sequential [c1; c2; c3] ;;
  c1 <- conv_relu [None; None; Some (nf * 16)] (nf * 16) ;;
  c2 <- conv_relu [None; None; Some (nf * 16)] (nf * 16) ;;
  c3 <- conv [None; None; Some (nf * 16)] 1 1 default_momentum tf_identity ;;
  conv_healty <- new_Sequential [c1; c2; c3] ;;
  c1 <- conv_relu [None; None; Some (nf * 16)] (nf * 16) ;;
  c2 <- conv_relu [None; None; Some (nf * 16)] (nf * 16) ;;
  p <- new ;;
  conv2 <- new_Sequential [c1; c2; MaxPool2D p] ;;
  f <- new ;;
  d1 <- new ;;
  r <- new ;;
  dr <- new ;;
  d2 <- new ;;
  linearclass <- new_Sequential
    [Flatten f; Dense d1 None 64; ReLU r; Dropout dr (1 # 10); Dense d2 None 2] ;;
  ret (mk ill_label encoder conv_ill conv_healty conv2 linearclass).

(** [Discriminator(ill_label, n_channels=1, nf=64, batch_norm=True)], the
    allocator standing at [o]. *)
Definition __init__ (ill_label n_channels nf : Z) (batch_norm : bool) (o : ObjId)
    : result (t * Self) :=
  build ill_label n_channels nf (DeScarGANModel.__init__ batch_norm o).

Definition call (self : t) (x : Shape) (label : list Z) (training : bool)
    : Fwd (Shape * Shape) :=
  hidden <- invoke (_encoder self) x (Some training) ;;
  out <- tf_cond (all_ill (_ill_label self) label)
           (fun _ => invoke (_conv_ill self) hidden (Some training))
           (fun _ => invoke (_conv_healty self) hidden (Some training)) ;;
  conv <- invoke (_conv2 self) hidden (Some training) ;;
  squeezed <- lift (tf_squeeze_1_2 conv) ;;
  pred <- invoke (_linearclass self) squeezed (Some training) ;;
  ret (out, pred).

End Discriminator.

(** ** Observations on layers and traces *)

(** A layer together with every layer nested in it. *)
Fixpoint sublayers (l : Layer) : list Layer :=
  l :: match l with
       | Sequential _ layers => flat_map sublayers layers
       | _ => []
       end.

(** The learnable parameters a layer object owns, named as Keras names them. *)
Definition own_weights (l : Layer) : list (ObjId * string) :=
  match l with
  | Conv2D i _ _ _ _ _ _ _ use_bias =>
      (i, "kernel"%string) :: (if use_bias then [(i, "bias"%string)] else [])
  | Conv2DTranspose i _ _ _ _ _ => [(i, "kernel"%string); (i, "bias"%string)]
  | BatchNormalization i _ => [(i, "gamma"%string); (i, "beta"%string)]
  | Dense i _ _ => [(i, "kernel"%string); (i, "bias"%string)]
  | _ => []
  end.

Definition trainable_weights (l : Layer) : list (ObjId * string) :=
  flat_map own_weights (sublayers l).

(** The architecture of a layer: the layer with every layer identity erased. *)
Fixpoint architecture (l : Layer) : Layer :=
  match l with
  | Conv2D _ s f k st p ki bi ub => Conv2D O s f k st p ki bi ub
  | Conv2DTranspose _ s f k st p => Conv2DTranspose O s f k st p
  | BatchNormalization _ m => BatchNormalization O m
  | ReLU _ => ReLU O
  | MaxPool2D _ => MaxPool2D O
  | UpSampling2D _ => UpSampling2D O
  | Flatten _ => Flatten O
  | Dense _ s u => Dense O s u
  | Dropout _ r => Dropout O r
  | Sequential _ layers => Sequential O (map architecture layers)
  end.

Definition is_convolution (l : Layer) : bool :=
  match l with
  | Conv2D _ _ _ _ _ _ _ _ _ => true
  | _ => false
  end.

Definition is_activation (l : Layer) : bool :=
  match l with
  | ReLU _ => true
  | _ => false
  end.

Definition is_batch_normalization (l : Layer) : bool :=
  match l with
  | BatchNormalization _ _ => true
  | _ => false
  end.

(** How many of the layers of [l], nested ones included, satisfy [p]. *)
Definition count_layers (p : Layer -> bool) (l : Layer) : nat :=
  List.length (filter p (sublayers l)).

(** The entries of a [Sequential] model, seen from outside: a block as
    [conv] builds it when batch normalization is on (a convolution with its
    number of filters, then whatever follows), a max-pooling, or anything
    else. *)
Inductive Entry : Type :=
| ConvBlock (filters : Z)
| Pool
| Other.

Definition classify (l : Layer) : Entry :=
  match l with
  | MaxPool2D _ => Pool
  | Sequential _ (Conv2D _ _ filters _ _ _ _ _ _ :: _) => ConvBlock filters
  | _ => Other
  end.

Definition layout (l : Layer) : list Entry :=
  match l with
  | Sequential _ layers => map classify layers
  | _ => []
  end.

Definition is_conv_block (e : Entry) : bool :=
  match e with
  | ConvBlock _ => true
  | _ => false
  end.

Definition is_pool (e : Entry) : bool :=
  match e with
  | Pool => true
  | _ => false
  end.

(** The filter widths of the conv blocks of a layout, in order. *)
Fixpoint widths (es : list Entry) : list Z :=
  match es with
  | [] => []
  | ConvBlock f :: es' => f :: widths es'
  | _ :: es' => widths es'
  end.

(** Whether the trace shows a call of layer [l]. *)
Definition called (l : Layer) (tr : list Event) : bool :=
  existsb (fun e => match e with
                    | Called i _ _ => Nat.eqb i (layer_id l)
                    | Concatenated _ _ _ => false
                    end) tr.

(** Whether the trace shows the result of a call of layer [l] going, as the
    very next step, into [DeScarGANModel.concat] as its first argument. *)
Fixpoint followed_by_concat (l : Layer) (tr : list Event) : bool :=
  match tr with
  | [] => false
  | e :: rest =>
      match e, rest with
      | Called i _ y, Concatenated u _ _ :: _ =>
          (Nat.eqb i (layer_id l) && dims_eqb u y) || followed_by_concat l rest
      | _, _ => followed_by_concat l rest
      end
  end.

Definition is_concat (e : Event) : bool :=
  match e with
  | Concatenated _ _ _ => true
  | Called _ _ _ => false
  end.

(** The calls [Generator.call] makes, in order, on an input it accepts:
    [ill] tells which head is taken. *)
Definition generator_trace (g : Generator.t) (n h w n_channels nf : Z) (ill : bool)
    : list Event :=
  let a := h / 8 in
  let b := w / 8 in
  [Called (layer_id (Generator._down0 g)) [n; h; w; n_channels + 2] [n; h; w; nf];
   Called (layer_id (Generator._down1 g)) [n; h; w; nf] [n; 4 * a; 4 * b; nf * 2];
   Called (layer_id (Generator._down2 g))
          [n; 4 * a; 4 * b; nf * 2] [n; 2 * a; 2 * b; nf * 4];
   Called (layer_id (Generator._down3 g)) [n; 2 * a; 2 * b; nf * 4] [n; a; b; nf * 8];
   Called (layer_id (Generator._up3 g)) [n; a; b; nf * 8] [n; 2 * a; 2 * b; nf * 4];
   Concatenated [n; 2 * a; 2 * b; nf * 4] [n; 2 * a; 2 * b; nf * 4]
                [n; 2 * a; 2 * b; nf * 8];
   Called (layer_id (Generator._conv5 g))
          [n; 2 * a; 2 * b; nf * 8] [n; 2 * a; 2 * b; nf * 4];
   Called (layer_id (Generator._up2 g))
          [n; 2 * a; 2 * b; nf * 4] [n; 4 * a; 4 * b; nf * 2];
   Concatenated [n; 4 * a; 4 * b; nf * 2] [n; 4 * a; 4 * b; nf * 2]
                [n; 4 * a; 4 * b; nf * 4];
   Called (layer_id (Generator._conv6 g))
          [n; 4 * a; 4 * b; nf * 4] [n; 4 * a; 4 * b; nf * 2];
   Called (layer_id (Generator._up1 g))
          [n; 4 * a; 4 * b; nf * 2] [n; 8 * a; 8 * b; nf];
   Called (layer_id (if ill then Generator._conv7_ill g else Generator._conv7_healty g))
          [n; 8 * a; 8 * b; nf] [n; 8 * a; 8 * b; n_channels]].

(** The calls [Discriminator.call] makes, in order, on an input it accepts. *)
Definition discriminator_trace (d : Discriminator.t) (n h w n_channels nf : Z)
    (ill : bool) : list Event :=
  let hidden := [n; h / 32; w / 32; nf * 16] in
  [Called (layer_id (Discriminator._encoder d)) [n; h; w; n_channels] hidden;
   Called (layer_id (if ill then Discriminator._conv_ill d
                     else Discriminator._conv_healty d))
          hidden [n; h / 32; w / 32; 1];
   Called (layer_id (Discriminator._conv2 d)) hidden [n; 1; 1; nf * 16];
   Called (layer_id (Discriminator._linearclass d)) [n; nf * 16] [n; 2]].

(** Reading a property [k] times in a row. *)
Fixpoint accesses (property : Build Initializer) (k : nat) : Build (list Initializer) :=
  match k with
  | O => ret []
  | S k' =>
      i <- property ;;
      rest <- accesses property k' ;;
      ret (i :: rest)
  end.

(** A property that constructs its value at the first access, stores it in
    the field [cache] and returns the stored instance ever after. *)
Definition caches (property : Build Initializer) (cache : Self -> option Initializer)
    (kind : InitializerKind) : Prop :=
  forall (s : Self) (k : nat),
  exists i s1,
    accesses property (S k) s = Ok (repeat i (S k), s1)
    /\ cache s1 = Some i
    /\ match cache s with
       | Some j => i = j /\ s1 = s
       | None => i = mkInitializer (fresh s) kind
       end.

(** A label that [tf.cast(_, tf.int32)] leaves as it is. *)
Definition int32 (v : Z) : Prop := - 2 ^ 31 <= v < 2 ^ 31.

(** Inputs [Generator.call] accepts: an image batch with the configured
    number of channels, one label per image, and a height and a width that
    three halvings followed by two doublings take back to the sizes of the
    skip tensors. *)
Definition generator_accepts (n_channels : Z) (x : Shape) (label : list Z) : bool :=
  match x with
  | [n; h; w; c] =>
      (n =? Z.of_nat (List.length label)) && (c =? n_channels)
      && (h mod 8 <=? 1) && (w mod 8 <=? 1)
  | _ => false
  end.

(** Inputs [Discriminator.call] accepts: an image batch with the configured
    number of channels whose height and width six halvings take to 1. *)
Definition discriminator_accepts (n_channels : Z) (x : Shape) : bool :=
  match x with
  | [_; h; w; c] =>
      (c =? n_channels) && (h / 64 =? 1) && (w / 64 =? 1)
  | _ => false
  end.

(** ** Observations on whole models *)

(** The blocks a generator holds, in the order [__init__] creates them. *)
Definition generator_blocks (g : Generator.t) : list Layer :=
  [Generator._down0 g; Generator._down1 g; Generator._down2 g; Generator._down3 g;
   Generator._up3 g; Generator._conv5 g; Generator._up2 g; Generator._conv6 g;
   Generator._up1 g; Generator._conv7_ill g; Generator._conv7_healty g].

(** The blocks a discriminator holds, in the order [__init__] creates them. *)
Definition discriminator_blocks (d : Discriminator.t) : list Layer :=
  [Discriminator._encoder d; Discriminator._conv_ill d; Discriminator._conv_healty d;
   Discriminator._conv2 d; Discriminator._linearclass d].

(** Every layer of a list of blocks, nested ones included. *)
Definition all_layers (blocks : list Layer) : list Layer := flat_map sublayers blocks.

(** The identities of all these layer objects. *)
Definition objects (blocks : list Layer) : list ObjId := map layer_id (all_layers blocks).

Definition count_in (p : Layer -> bool) (blocks : list Layer) : nat :=
  List.length (filter p (all_layers blocks)).

(** A convolution as [conv] creates it holds the two initializer instances
    of the model and has no bias; one as [deconv] creates it is left to the
    defaults of the library and has a bias. *)
Definition initialized_by (ki bi : Initializer) (l : Layer) : Prop :=
  match l with
  | Conv2D _ _ _ _ _ _ k b use_bias =>
      if use_bias then k = None /\ b = None else k = Some ki /\ b = Some bi
  | _ => True
  end.

Definition has_bias (l : Layer) : bool :=
  match l with
  | Conv2D _ _ _ _ _ _ _ _ use_bias => use_bias
  | _ => false
  end.

(** Whether no identity occurs twice. *)
Fixpoint nodupb (l : list ObjId) : bool :=
  match l with
  | [] => true
  | i :: rest => negb (existsb (Nat.eqb i) rest) && nodupb rest
  end.
(** * Properties *)

Unset Implicit Arguments.

(** ** The monad *)

Lemma bind_Ok {S A B} (m : M S A) (k : A -> M S B) s a s' :
  m s = Ok (a, s') -> bind m k s = k a s'.
Proof. intros E. unfold bind. now rewrite E. Qed.

Lemma bind_Raise {S A B} (m : M S A) (k : A -> M S B) s e :
  m s = Raise e -> bind m k s = Raise e.
Proof. intros E. unfold bind. now rewrite E. Qed.

Lemma bind_inv {S A B} (m : M S A) (k : A -> M S B) s r :
  bind m k s = Ok r -> exists a s', m s = Ok (a, s') /\ k a s' = Ok r.
Proof.
  unfold bind. destruct (m s) as [[a s'] | e]; [eauto | discriminate].
Qed.

Lemma bind_lift {S A B} (r : result A) (k : A -> M S B) s :
  bind (lift r) k s = match r with Ok a => k a s | Raise e => Raise e end.
Proof. unfold bind, lift. now destruct r. Qed.

Lemma bind_invoke {B} l x t (k : Shape -> Fwd B) tr :
  bind (invoke l x t) k tr
  = match call_layer l x with
    | Ok y => k y (tr ++ [Called (layer_id l) x y])
    | Raise e => Raise e
    end.
Proof. unfold invoke, bind, lift, emit, ret. now destruct (call_layer l x). Qed.

Lemma invoke_eq l x t tr :
  invoke l x t tr
  = match call_layer l x with
    | Ok y => Ok (y, tr ++ [Called (layer_id l) x y])
    | Raise e => Raise e
    end.
Proof. unfold invoke, bind, lift, emit, ret. now destruct (call_layer l x). Qed.

Lemma bind_concat {B} a b (k : Shape -> Fwd B) tr :
  bind (DeScarGANModel.concat a b) k tr
  = match tf_concat a b with
    | Ok y => k y (tr ++ [Concatenated a b y])
    | Raise e => Raise e
    end.
Proof.
  unfold DeScarGANModel.concat, bind, lift, emit, ret. now destruct (tf_concat a b).
Qed.

(** ** Shapes *)

Lemma dims_eqb_eq a b : dims_eqb a b = true <-> a = b.
Proof.
  revert b. induction a as [| x a IH]; intros [| y b]; simpl; split;
    try congruence; try reflexivity.
  - intros H. apply andb_true_iff in H as [Hx Hab].
    apply Z.eqb_eq in Hx. apply IH in Hab. congruence.
  - intros H. injection H as -> ->. rewrite Z.eqb_refl. now apply IH.
Qed.

Lemma dims_eqb_refl a : dims_eqb a a = true.
Proof. now apply dims_eqb_eq. Qed.

Lemma dims_eqb_rev a b : dims_eqb (rev a) (rev b) = dims_eqb a b.
Proof.
  destruct (dims_eqb a b) eqn:E.
  - apply dims_eqb_eq in E. subst. apply dims_eqb_refl.
  - destruct (dims_eqb (rev a) (rev b)) eqn:E'; [| reflexivity].
    apply dims_eqb_eq in E'. apply (f_equal (@rev Z)) in E'.
    rewrite !rev_involutive in E'. subst. now rewrite dims_eqb_refl in E.
Qed.

Lemma tf_concat_last front_a front_b ca cb :
  tf_concat (front_a ++ [ca]) (front_b ++ [cb])
  = if dims_eqb front_a front_b
    then Ok (front_a ++ [ca + cb])
    else Raise InvalidArgumentError.
Proof.
  unfold tf_concat. rewrite !rev_unit, dims_eqb_rev, rev_involutive. reflexivity.
Qed.

Lemma tf_concat_inv a b y :
  tf_concat a b = Ok y ->
  exists front ca cb, a = front ++ [ca] /\ b = front ++ [cb] /\ y = front ++ [ca + cb].
Proof.
  destruct (rev a) as [| ca ra] eqn:Ea.
  - unfold tf_concat. rewrite Ea. discriminate.
  - destruct (rev b) as [| cb rb] eqn:Eb.
    + unfold tf_concat. rewrite Ea, Eb. discriminate.
    + apply (f_equal (@rev Z)) in Ea, Eb. rewrite rev_involutive in Ea, Eb.
      simpl in Ea, Eb. subst a b. rewrite tf_concat_last.
      destruct (dims_eqb (rev ra) (rev rb)) eqn:E; [| discriminate].
      apply dims_eqb_eq in E. intros [= <-]. rewrite <- E.
      exists (rev ra), ca, cb. repeat split.
Qed.

Lemma same_length h k : conv_output_length h k SAME 1 = h.
Proof. unfold conv_output_length. rewrite Z.div_1_r. lia. Qed.

Lemma pool_length h : conv_output_length h 2 VALID 2 = h / 2.
Proof. unfold conv_output_length. f_equal. lia. Qed.

(** ** conv *)

(** C1 (as the code has it).  With batch normalization off, the block [conv]
    returns holds the activation alone, with no convolution, and raises
    [TypeError] when the activation is a plain function; with batch
    normalization on, it holds a bias-free convolution and the
    batch-normalization layer, with no activation, whatever [activation_fn]
    is. *)
Theorem conv_block_contents :
  (forall (P : DeScarGANModel.properties) input_shape filters kernel_size momentum
          o ki bi,
      DeScarGANModel.conv input_shape filters kernel_size momentum k_layers_ReLU
        (mkSelf o false ki bi)
      = Ok (Sequential (S o) [ReLU o], mkSelf (S (S o)) false ki bi))
  /\ (forall (P : DeScarGANModel.properties) input_shape filters kernel_size momentum
             activation_fn s,
         _batch_norm s = false ->
         activation_fn <> k_layers_ReLU ->
         DeScarGANModel.conv input_shape filters kernel_size momentum activation_fn s
         = Raise TypeError)
  /\ (forall input_shape filters kernel_size momentum activation_fn o,
         DeScarGANModel.conv (P := Generator.model)
           input_shape filters kernel_size momentum activation_fn
           (DeScarGANModel.__init__ true o)
         = Ok (Sequential (4 + o)%nat
                 [Conv2D (2 + o)%nat (Some input_shape) filters kernel_size 1 SAME
                    (Some (mkInitializer o HeNormal))
                    (Some (mkInitializer (1 + o)%nat Zeros)) false;
                  BatchNormalization (3 + o)%nat momentum],
               mkSelf (5 + o)%nat true (Some (mkInitializer o HeNormal))
                      (Some (mkInitializer (1 + o)%nat Zeros)))).
Proof.
  split; [| split].
  - reflexivity.
  - intros P input_shape filters kernel_size momentum activation_fn [o bn ki bi] Hbn Ha.
    simpl in Hbn. subst bn. destruct activation_fn; [congruence | reflexivity ..].
  - reflexivity.
Qed.

Lemma conv_block_contents_witness :
  DeScarGANModel.conv (P := Generator.model)
    [None; None; Some 64] 1 3 DeScarGANModel.default_momentum k_activations_tanh
    (DeScarGANModel.__init__ false 0%nat)
  = Raise TypeError.
Proof.
  apply (proj1 (proj2 conv_block_contents)); [reflexivity | discriminate].
Defined.

(** ** concat *)

(** C7.  [concat] raises a dimension-mismatch error when the batch and
    spatial dimensions of its two inputs differ; otherwise it returns a
    tensor with those dimensions unchanged and the two channel counts
    added. *)
Theorem concat_raises_or_sums (front_a front_b : Shape) (ca cb : Z) (tr : list Event) :
  (front_a <> front_b ->
   DeScarGANModel.concat (front_a ++ [ca]) (front_b ++ [cb]) tr
   = Raise InvalidArgumentError)
  /\ (front_a = front_b ->
      DeScarGANModel.concat (front_a ++ [ca]) (front_b ++ [cb]) tr
      = Ok (front_a ++ [ca + cb],
            tr ++ [Concatenated (front_a ++ [ca]) (front_b ++ [cb])
                                (front_a ++ [ca + cb])])).
Proof.
  unfold DeScarGANModel.concat. rewrite bind_lift, tf_concat_last. split.
  - intros Hne. destruct (dims_eqb front_a front_b) eqn:E; [| reflexivity].
    apply dims_eqb_eq in E. contradiction.
  - intros <-. rewrite dims_eqb_refl. reflexivity.
Qed.

Lemma concat_raises_or_sums_witness :
  DeScarGANModel.concat [2; 8; 8; 16] [2; 4; 8; 16] [] = Raise InvalidArgumentError
  /\ DeScarGANModel.concat [2; 8; 8; 16] [2; 8; 8; 3] []
     = Ok ([2; 8; 8; 19], [Concatenated [2; 8; 8; 16] [2; 8; 8; 3] [2; 8; 8; 19]]).
Proof.
  split.
  - apply (proj1 (concat_raises_or_sums [2; 8; 8] [2; 4; 8] 16 16 [])). discriminate.
  - apply (proj2 (concat_raises_or_sums [2; 8; 8] [2; 8; 8] 16 3 [])). reflexivity.
Defined.

(** ** Symbolic evaluation of a forward pass *)

Ltac arith := Z.div_mod_to_equations; lia.

Ltac norm :=
  cbn -[conv_output_length Z.mul Z.add Z.div Z.modulo Z.eqb Z.leb all_ill];
  rewrite ?same_length, ?pool_length, ?Z.mul_1_l, ?Z.mul_1_r, ?andb_true_r,
    ?andb_false_r.

Ltac settle_test :=
  match goal with
  | |- context [?a =? ?b] =>
      first [ replace (a =? b) with true by (symmetry; apply Z.eqb_eq; lia)
            | replace (a =? b) with true by (symmetry; apply Z.eqb_eq; arith)
            | replace (a =? b) with false by (symmetry; apply Z.eqb_neq; lia) ]
  end.

Ltac step :=
  first [rewrite bind_lift | rewrite bind_invoke | rewrite bind_concat
        | rewrite invoke_eq];
  norm; repeat (settle_test; norm).

Ltac split_test :=
  match goal with
  | |- context [?a =? ?b] => destruct (Z.eqb_spec a b); norm
  end.

Ltac built H :=
  match type of H with
  | _ _ _ _ ?bn _ = Ok _ =>
      destruct bn; cbn in H; [injection H as <- <- | discriminate H]
  end.

Lemma accepted_sizes h : (h mod 8 <=? 1) = true ->
  h / 2 = 4 * (h / 8) /\ h / 2 / 2 = 2 * (h / 8) /\ h / 2 / 2 / 2 = h / 8.
Proof. intros H. apply Z.leb_le in H. arith. Qed.

Lemma Generator_call_accepted ill nc nf bn o g s n h w c label training :
  Generator.__init__ ill nc nf bn o = Ok (g, s) ->
  generator_accepts nc [n; h; w; c] label = true ->
  Generator.call g [n; h; w; c] label training []
  = Ok ([n; 8 * (h / 8); 8 * (w / 8); nc],
        generator_trace g n h w nc nf (all_ill ill label)).
Proof.
  intros Hg Hx. built Hg.
  unfold generator_accepts in Hx.
  apply andb_true_iff in Hx as [Hx Hw]. apply andb_true_iff in Hx as [Hx Hh].
  apply andb_true_iff in Hx as [Hn Hc].
  apply Z.eqb_eq in Hn, Hc. subst c.
  destruct (accepted_sizes _ Hh) as (Hh1 & Hh2 & Hh3).
  destruct (accepted_sizes _ Hw) as (Hw1 & Hw2 & Hw3).
  unfold Generator.call, tf_one_hot. rewrite <- Hn.
  cbn [Generator._down0 Generator._down1 Generator._down2 Generator._down3
       Generator._up3 Generator._up2 Generator._up1 Generator._conv5 Generator._conv6
       Generator._conv7_ill Generator._conv7_healty Generator._ill_label].
  repeat step.
  unfold tf_cond, generator_trace.
  destruct (all_ill ill label); step; rewrite ?Hh3, ?Hw3, ?Hh2, ?Hw2, ?Hh1, ?Hw1;
    repeat (f_equal; try lia).
Qed.

Lemma tf_concat_length a b y : tf_concat a b = Ok y -> List.length a = List.length b.
Proof.
  intros H. apply tf_concat_inv in H as (front & ca & cb & -> & -> & _).
  now rewrite !length_app.
Qed.

Lemma generator_accepts_false nc n h w c label :
  generator_accepts nc [n; h; w; c] label = false ->
  n <> Z.of_nat (List.length label) \/ c <> nc \/ 1 < h mod 8 \/ 1 < w mod 8.
Proof.
  unfold generator_accepts. intros H.
  destruct (Z.eqb_spec n (Z.of_nat (List.length label))); [| tauto].
  destruct (Z.eqb_spec c nc); [| tauto].
  destruct (Z.leb_spec (h mod 8) 1); [| tauto].
  destruct (Z.leb_spec (w mod 8) 1); [discriminate H | tauto].
Qed.

Lemma Generator_call_rejected ill nc nf bn o g s x label training :
  Generator.__init__ ill nc nf bn o = Ok (g, s) ->
  generator_accepts nc x label = false ->
  exists e, Generator.call g x label training [] = Raise e.
Proof.
  intros Hg Hx. built Hg.
  unfold Generator.call, tf_one_hot.
  cbn [Generator._down0 Generator._down1 Generator._down2 Generator._down3
       Generator._up3 Generator._up2 Generator._up1 Generator._conv5 Generator._conv6
       Generator._conv7_ill Generator._conv7_healty Generator._ill_label].
  destruct x as [| n [| h [| w [| c [| c' rest]]]]];
    try (norm; eexists; reflexivity);
    try (cbn -[tf_concat Z.mul]; rewrite bind_lift;
         destruct (tf_concat _ _) eqn:E;
         [apply tf_concat_length in E; simpl in E; lia | eexists; reflexivity]).
  apply generator_accepts_false in Hx.
  repeat (repeat step; try split_test);
    try (eexists; reflexivity).
  exfalso. destruct Hx as [Hx | [Hx | [Hx | Hx]]]; try contradiction; arith.
Qed.

Lemma Generator_call_returns ill nc nf bn o g s x label training out tr :
  Generator.__init__ ill nc nf bn o = Ok (g, s) ->
  Generator.call g x label training [] = Ok (out, tr) ->
  exists n h w,
    x = [n; h; w; nc]
    /\ generator_accepts nc x label = true
    /\ out = [n; 8 * (h / 8); 8 * (w / 8); nc]
    /\ tr = generator_trace g n h w nc nf (all_ill ill label).
Proof.
  intros Hg Hcall.
  destruct (generator_accepts nc x label) eqn:Hx.
  - destruct x as [| n [| h [| w [| c [| c' rest]]]]]; try discriminate Hx.
    assert (Hc : c = nc).
    { unfold generator_accepts in Hx.
      destruct (Z.eqb_spec c nc); [assumption |].
      rewrite andb_false_r in Hx. discriminate Hx. }
    subst c. rewrite (Generator_call_accepted _ _ _ _ _ _ _ _ _ _ _ _ training Hg Hx) in Hcall.
    injection Hcall as <- <-. exists n, h, w. repeat split; assumption.
  - destruct (Generator_call_rejected _ _ _ _ _ _ _ _ _ training Hg Hx) as [e He].
    rewrite He in Hcall. discriminate Hcall.
Qed.

(** ** Which head is called *)

Ltac settle_ids :=
  repeat match goal with
         | |- context [Nat.eqb ?a ?b] =>
             first [ replace (Nat.eqb a b) with true
                       by (symmetry; apply Nat.eqb_eq; lia)
                   | replace (Nat.eqb a b) with false
                       by (symmetry; apply Nat.eqb_neq; lia) ]
         end.

Lemma Generator_heads_called ill nc nf bn o g s n h w b :
  Generator.__init__ ill nc nf bn o = Ok (g, s) ->
  called (Generator._conv7_ill g) (generator_trace g n h w nc nf b) = b
  /\ called (Generator._conv7_healty g) (generator_trace g n h w nc nf b) = negb b.
Proof.
  intros Hg. built Hg.
  destruct b; split; cbn -[Nat.eqb Z.mul Z.div Z.add]; settle_ids; reflexivity.
Qed.

Lemma Generator_skips ill nc nf bn o g s n h w b :
  Generator.__init__ ill nc nf bn o = Ok (g, s) ->
  let tr := generator_trace g n h w nc nf b in
  followed_by_concat (Generator._up3 g) tr = true
  /\ followed_by_concat (Generator._up2 g) tr = true
  /\ followed_by_concat (Generator._up1 g) tr = false.
Proof.
  intros Hg. built Hg.
  destruct b; repeat split;
    cbn -[Nat.eqb Z.mul Z.div Z.add Z.eqb]; settle_ids;
    rewrite ?Z.eqb_refl; reflexivity.
Qed.

Lemma cast_int32_id v : int32 v -> cast_int32 v = v.
Proof.
  unfold int32, cast_int32. intros H. rewrite Z.mod_small; lia.
Qed.

Lemma all_ill_true ill label :
  Forall int32 label ->
  all_ill ill label = true <-> (forall l, In l label -> l = ill).
Proof.
  unfold all_ill, tf_reduce_all, tf_equal, tf_cast_int32.
  induction 1 as [| v label Hv _ IH]; simpl.
  - split; [intros _ l [] | reflexivity].
  - rewrite (cast_int32_id _ Hv), andb_true_iff, IH, Z.eqb_eq. split.
    + intros [-> Hall] l [<- | Hl]; [reflexivity | now apply Hall].
    + intros Hall. split; [symmetry; apply Hall; now left |].
      intros l Hl. apply Hall. now right.
Qed.

Lemma all_ill_false ill label :
  Forall int32 label ->
  all_ill ill label = false <-> (exists l, In l label /\ l <> ill).
Proof.
  unfold all_ill, tf_reduce_all, tf_equal, tf_cast_int32.
  induction 1 as [| v label Hv _ IH]; simpl.
  - split; [discriminate | intros (l & [] & _)].
  - rewrite (cast_int32_id _ Hv), andb_false_iff, IH, Z.eqb_neq. split.
    + intros [Hne | (l & Hl & Hne)].
      * exists v. split; [now left | congruence].
      * exists l. split; [now right | assumption].
    + intros (l & [<- | Hl] & Hne); [left; congruence | right; eauto].
Qed.

(** ** The forward pass of the discriminator *)

Lemma discriminator_accepts_false nc n h w c :
  discriminator_accepts nc [n; h; w; c] = false ->
  c <> nc \/ h / 64 <> 1 \/ w / 64 <> 1.
Proof.
  unfold discriminator_accepts. intros H.
  destruct (Z.eqb_spec c nc); [| tauto].
  destruct (Z.eqb_spec (h / 64) 1); [| tauto].
  destruct (Z.eqb_spec (w / 64) 1); [discriminate H | tauto].
Qed.

Lemma Discriminator_call_accepted ill nc nf bn o d s n h w c label training :
  Discriminator.__init__ ill nc nf bn o = Ok (d, s) ->
  discriminator_accepts nc [n; h; w; c] = true ->
  Discriminator.call d [n; h; w; c] label training []
  = Ok (([n; h / 32; w / 32; 1], [n; 2]),
        discriminator_trace d n h w nc nf (all_ill ill label)).
Proof.
  intros Hd Hx. built Hd.
  unfold discriminator_accepts in Hx.
  apply andb_true_iff in Hx as [Hx Hw]. apply andb_true_iff in Hx as [Hc Hh].
  apply Z.eqb_eq in Hc, Hh, Hw. subst c.
  assert (Hh5 : h / 2 / 2 / 2 / 2 / 2 = h / 32) by arith.
  assert (Hw5 : w / 2 / 2 / 2 / 2 / 2 = w / 32) by arith.
  assert (Hh6 : h / 32 / 2 = 1) by arith.
  assert (Hw6 : w / 32 / 2 = 1) by arith.
  clear Hh Hw.
  unfold Discriminator.call, tf_cond, discriminator_trace.
  cbn [Discriminator._encoder Discriminator._conv_ill Discriminator._conv_healty
       Discriminator._conv2 Discriminator._linearclass Discriminator._ill_label].
  step. rewrite Hh5, Hw5.
  destruct (all_ill ill label); repeat step; rewrite ?Hh6, ?Hw6; norm; reflexivity.
Qed.

Lemma Discriminator_call_rejected ill nc nf bn o d s x label training :
  Discriminator.__init__ ill nc nf bn o = Ok (d, s) ->
  discriminator_accepts nc x = false ->
  exists e, Discriminator.call d x label training [] = Raise e.
Proof.
  intros Hd Hx. built Hd.
  unfold Discriminator.call, tf_cond.
  cbn [Discriminator._encoder Discriminator._conv_ill Discriminator._conv_healty
       Discriminator._conv2 Discriminator._linearclass Discriminator._ill_label].
  destruct x as [| n [| h [| w [| c [| c' rest]]]]];
    try (step; eexists; reflexivity).
  apply discriminator_accepts_false in Hx.
  destruct (all_ill ill label);
    repeat (repeat step; repeat (settle_test; norm); try split_test);
    try (eexists; reflexivity);
    exfalso; destruct Hx as [Hx | [Hx | Hx]]; try congruence; arith.
Qed.

Lemma Discriminator_call_returns ill nc nf bn o d s x label training out pred tr :
  Discriminator.__init__ ill nc nf bn o = Ok (d, s) ->
  Discriminator.call d x label training [] = Ok ((out, pred), tr) ->
  exists n h w,
    x = [n; h; w; nc]
    /\ discriminator_accepts nc x = true
    /\ out = [n; h / 32; w / 32; 1]
    /\ pred = [n; 2]
    /\ tr = discriminator_trace d n h w nc nf (all_ill ill label).
Proof.
  intros Hd Hcall.
  destruct (discriminator_accepts nc x) eqn:Hx.
  - destruct x as [| n [| h [| w [| c [| c' rest]]]]]; try discriminate Hx.
    assert (Hc : c = nc).
    { unfold discriminator_accepts in Hx.
      destruct (Z.eqb_spec c nc); [assumption | discriminate Hx]. }
    subst c.
    rewrite (Discriminator_call_accepted _ _ _ _ _ _ _ _ _ _ _ label training Hd Hx)
      in Hcall.
    injection Hcall as <- <- <-. exists n, h, w. repeat split; assumption.
  - destruct (Discriminator_call_rejected _ _ _ _ _ _ _ _ label training Hd Hx)
      as [e He].
    rewrite He in Hcall. discriminate Hcall.
Qed.

Lemma Discriminator_heads_called ill nc nf bn o d s n h w b :
  Discriminator.__init__ ill nc nf bn o = Ok (d, s) ->
  called (Discriminator._conv_ill d) (discriminator_trace d n h w nc nf b) = b
  /\ called (Discriminator._conv_healty d) (discriminator_trace d n h w nc nf b)
     = negb b.
Proof.
  intros Hd. built Hd.
  destruct b; split; cbn -[Nat.eqb Z.mul Z.div Z.add]; settle_ids; reflexivity.
Qed.

(** ** The generator *)

(** C4 (amended).  [Generator.call] returns only on an image batch with
    [n_channels] channels, one label per image, and a height and a width
    that leave a remainder of 0 or 1 modulo 8; its result then has the
    batch size of the input, [n_channels] channels, and the height and
    width of the input rounded down to a multiple of 8.  It does return on
    every such input of height and width at least 8, and the result has the
    shape of the input exactly when height and width are multiples of 8. *)
Theorem generator_output_shape ill nc nf bn o g s x label training :
  Generator.__init__ ill nc nf bn o = Ok (g, s) ->
  (forall out tr,
      Generator.call g x label training [] = Ok (out, tr) ->
      exists n h w,
        x = [n; h; w; nc]
        /\ n = Z.of_nat (List.length label)
        /\ h mod 8 <= 1 /\ w mod 8 <= 1
        /\ out = [n; 8 * (h / 8); 8 * (w / 8); nc]
        /\ (out = x <-> h mod 8 = 0 /\ w mod 8 = 0))
  /\ (forall n h w,
         x = [n; h; w; nc] ->
         n = Z.of_nat (List.length label) ->
         8 <= h -> 8 <= w -> h mod 8 <= 1 -> w mod 8 <= 1 ->
         exists tr,
           Generator.call g x label training []
           = Ok ([n; 8 * (h / 8); 8 * (w / 8); nc], tr)).
Proof.
  intros Hg. split.
  - intros out tr Hcall.
    destruct (Generator_call_returns _ _ _ _ _ _ _ _ _ _ _ _ Hg Hcall)
      as (n & h & w & -> & Hx & -> & _).
    exists n, h, w. unfold generator_accepts in Hx.
    apply andb_true_iff in Hx as [Hx Hw]. apply andb_true_iff in Hx as [Hx Hh].
    apply andb_true_iff in Hx as [Hn _].
    apply Z.eqb_eq in Hn. apply Z.leb_le in Hh, Hw.
    split; [reflexivity |]. split; [assumption |].
    split; [assumption |]. split; [assumption |]. split; [reflexivity |].
    split.
    + intros E.
      assert (Eh : 8 * (h / 8) = h) by congruence.
      assert (Ew : 8 * (w / 8) = w) by congruence.
      clear E Hcall. arith.
    + intros [Eh Ew]. repeat f_equal; arith.
  - intros n h w -> Hn _ _ Hh Hw. eexists.
    apply (Generator_call_accepted _ _ _ _ _ _ _ _ _ _ _ _ training Hg).
    unfold generator_accepts.
    apply Z.eqb_eq in Hn. apply Z.leb_le in Hh, Hw.
    now rewrite Hn, Z.eqb_refl, Hh, Hw.
Qed.

Lemma generator_output_shape_witness :
  exists g s,
    Generator.__init__ 1 1 4 true 0%nat = Ok (g, s)
    /\ exists tr,
         Generator.call g [2; 32; 32; 1] [1; 1] false []
         = Ok ([2; 8 * (32 / 8); 8 * (32 / 8); 1], tr).
Proof.
  destruct (Generator.__init__ 1 1 4 true 0%nat) as [[g s] | e] eqn:E;
    [| vm_compute in E; discriminate E].
  exists g, s. split; [reflexivity |].
  apply (proj2 (generator_output_shape 1 1 4 true 0%nat g s [2; 32; 32; 1] [1; 1]
                  false E) 2 32 32);
    [reflexivity | reflexivity | lia | lia | vm_compute; discriminate
    | vm_compute; discriminate].
Defined.

(** C4 (as stated) fails: a 33 x 33 image is accepted and comes back as
    32 x 32. *)
Lemma generator_output_shape_counterexample :
  exists g s tr,
    Generator.__init__ 1 1 4 true 0%nat = Ok (g, s)
    /\ Generator.call g [2; 33; 33; 1] [1; 1] false [] = Ok ([2; 32; 32; 1], tr).
Proof.
  destruct (Generator.__init__ 1 1 4 true 0%nat) as [[g s] | e] eqn:E;
    [| vm_compute in E; discriminate E].
  exists g, s. eexists. split; [reflexivity |].
  rewrite (Generator_call_accepted 1 1 4 true 0%nat g s 2 33 33 1 [1; 1] false E
             eq_refl).
  reflexivity.
Qed.

(** C2 (amended).  On every input it accepts, [Generator.call] makes the
    calls listed by [generator_trace]: three upsampling blocks, each halving
    the number of filters (8nf to 4nf, 4nf to 2nf, 2nf to nf); the results of
    the first two go straight into [concat] with the encoder tensor of the
    same size ([input_2], then [input_1]), and two conv blocks bring the
    doubled depth back to the halved width; the result of the third goes
    straight into the selected output head, with no concatenation. *)
Theorem decoder_stages ill nc nf bn o g s x label training out tr :
  Generator.__init__ ill nc nf bn o = Ok (g, s) ->
  Generator.call g x label training [] = Ok (out, tr) ->
  (exists n h w,
      x = [n; h; w; nc]
      /\ tr = generator_trace g n h w nc nf (all_ill ill label))
  /\ followed_by_concat (Generator._up3 g) tr = true
  /\ followed_by_concat (Generator._up2 g) tr = true
  /\ followed_by_concat (Generator._up1 g) tr = false
  /\ List.length (filter is_concat tr) = 2%nat.
Proof.
  intros Hg Hcall.
  destruct (Generator_call_returns _ _ _ _ _ _ _ _ _ _ _ _ Hg Hcall)
    as (n & h & w & -> & _ & _ & ->).
  destruct (Generator_skips _ _ _ _ _ _ _ n h w (all_ill ill label) Hg)
    as (H3 & H2 & H1).
  repeat split; try assumption.
  exists n, h, w. split; reflexivity.
Qed.

Lemma decoder_stages_witness :
  exists g s out tr,
    Generator.__init__ 1 1 4 true 0%nat = Ok (g, s)
    /\ Generator.call g [2; 32; 32; 1] [1; 1] false [] = Ok (out, tr)
    /\ followed_by_concat (Generator._up3 g) tr = true
    /\ followed_by_concat (Generator._up2 g) tr = true
    /\ followed_by_concat (Generator._up1 g) tr = false.
Proof.
  destruct (Generator.__init__ 1 1 4 true 0%nat) as [[g s] | e] eqn:E;
    [| vm_compute in E; discriminate E].
  pose proof (Generator_call_accepted 1 1 4 true 0%nat g s 2 32 32 1 [1; 1] false E
                eq_refl) as Hcall.
  exists g, s. do 2 eexists. split; [reflexivity |]. split; [exact Hcall |].
  destruct (decoder_stages 1 1 4 true 0%nat g s [2; 32; 32; 1] [1; 1] false _ _
              E Hcall) as (_ & H3 & H2 & H1 & _).
  repeat split; assumption.
Defined.

(** C2 (as stated) fails: in the run of the documentation's scenario the
    result of the third upsampling block does not go into [concat], and the
    pass makes two calls of [concat], not three. *)
Lemma decoder_stages_counterexample :
  exists g s out tr,
    Generator.__init__ 1 1 4 true 0%nat = Ok (g, s)
    /\ Generator.call g [2; 32; 32; 1] [1; 1] false [] = Ok (out, tr)
    /\ followed_by_concat (Generator._up1 g) tr = false
    /\ List.length (filter is_concat tr) = 2%nat.
Proof.
  destruct (Generator.__init__ 1 1 4 true 0%nat) as [[g s] | e] eqn:E;
    [| vm_compute in E; discriminate E].
  pose proof (Generator_call_accepted 1 1 4 true 0%nat g s 2 32 32 1 [1; 1] false E
                eq_refl) as Hcall.
  exists g, s. do 2 eexists. split; [reflexivity |]. split; [exact Hcall |].
  split; [| reflexivity].
  apply (Generator_skips 1 1 4 true 0%nat g s 2 32 32 (all_ill 1 [1; 1]) E).
Qed.

(** ** Branch selection *)

(** C3.  For labels in the range of [int32], both models call the "ill" head
    exactly when every label of the batch equals [ill_label], and the
    "healthy" head exactly when some label differs: the choice is made once
    for the whole batch. *)
Theorem batch_uniform_branch (ill : Z) (label : list Z) :
  Forall int32 label ->
  (forall nc nf bn o g s x training out tr,
      Generator.__init__ ill nc nf bn o = Ok (g, s) ->
      Generator.call g x label training [] = Ok (out, tr) ->
      (called (Generator._conv7_ill g) tr = true
       <-> forall l, In l label -> l = ill)
      /\ (called (Generator._conv7_healty g) tr = true
          <-> exists l, In l label /\ l <> ill))
  /\ (forall nc nf bn o d s x training out pred tr,
         Discriminator.__init__ ill nc nf bn o = Ok (d, s) ->
         Discriminator.call d x label training [] = Ok ((out, pred), tr) ->
         (called (Discriminator._conv_ill d) tr = true
          <-> forall l, In l label -> l = ill)
         /\ (called (Discriminator._conv_healty d) tr = true
             <-> exists l, In l label /\ l <> ill)).
Proof.
  intros Hlabel. split.
  - intros nc nf bn o g s x training out tr Hg Hcall.
    destruct (Generator_call_returns _ _ _ _ _ _ _ _ _ _ _ _ Hg Hcall)
      as (n & h & w & _ & _ & _ & ->).
    destruct (Generator_heads_called _ _ _ _ _ _ _ n h w (all_ill ill label) Hg)
      as [-> ->].
    split; [now apply all_ill_true |].
    rewrite negb_true_iff. now apply all_ill_false.
  - intros nc nf bn o d s x training out pred tr Hd Hcall.
    destruct (Discriminator_call_returns _ _ _ _ _ _ _ _ _ _ _ _ _ Hd Hcall)
      as (n & h & w & _ & _ & _ & _ & ->).
    destruct (Discriminator_heads_called _ _ _ _ _ _ _ n h w (all_ill ill label) Hd)
      as [-> ->].
    split; [now apply all_ill_true |].
    rewrite negb_true_iff. now apply all_ill_false.
Qed.

Lemma int32_labels : Forall int32 [1; 0].
Proof. repeat constructor; unfold int32; lia. Qed.

Lemma batch_uniform_branch_witness :
  exists g s out tr,
    Generator.__init__ 1 1 4 true 0%nat = Ok (g, s)
    /\ Generator.call g [2; 32; 32; 1] [1; 0] false [] = Ok (out, tr)
    /\ (called (Generator._conv7_healty g) tr = true
        <-> exists l, In l [1; 0] /\ l <> 1).
Proof.
  destruct (Generator.__init__ 1 1 4 true 0%nat) as [[g s] | e] eqn:E;
    [| vm_compute in E; discriminate E].
  pose proof (Generator_call_accepted 1 1 4 true 0%nat g s 2 32 32 1 [1; 0] false E
                eq_refl) as Hcall.
  exists g, s. do 2 eexists. split; [reflexivity |]. split; [exact Hcall |].
  apply (proj1 (batch_uniform_branch 1 [1; 0] int32_labels)
           1 4 true 0%nat g s [2; 32; 32; 1] false _ _ E Hcall).
Defined.

(** C10.  On an empty label tensor the branch predicate is true, so a call
    of either model with no label goes through the "ill" head and not
    through the "healthy" one. *)
Theorem empty_batch_takes_ill_head (ill : Z) :
  all_ill ill [] = true
  /\ (forall nc nf bn o g s x training out tr,
         Generator.__init__ ill nc nf bn o = Ok (g, s) ->
         Generator.call g x [] training [] = Ok (out, tr) ->
         called (Generator._conv7_ill g) tr = true
         /\ called (Generator._conv7_healty g) tr = false)
  /\ (forall nc nf bn o d s x training out pred tr,
         Discriminator.__init__ ill nc nf bn o = Ok (d, s) ->
         Discriminator.call d x [] training [] = Ok ((out, pred), tr) ->
         called (Discriminator._conv_ill d) tr = true
         /\ called (Discriminator._conv_healty d) tr = false).
Proof.
  split; [reflexivity |]. split.
  - intros nc nf bn o g s x training out tr Hg Hcall.
    destruct (Generator_call_returns _ _ _ _ _ _ _ _ _ _ _ _ Hg Hcall)
      as (n & h & w & _ & _ & _ & ->).
    apply (Generator_heads_called _ _ _ _ _ _ _ n h w true Hg).
  - intros nc nf bn o d s x training out pred tr Hd Hcall.
    destruct (Discriminator_call_returns _ _ _ _ _ _ _ _ _ _ _ _ _ Hd Hcall)
      as (n & h & w & _ & _ & _ & _ & ->).
    apply (Discriminator_heads_called _ _ _ _ _ _ _ n h w true Hd).
Qed.

Lemma empty_batch_takes_ill_head_witness :
  (exists g s out tr,
      Generator.__init__ 1 1 4 true 0%nat = Ok (g, s)
      /\ Generator.call g [0; 32; 32; 1] [] false [] = Ok (out, tr)
      /\ called (Generator._conv7_ill g) tr = true
      /\ called (Generator._conv7_healty g) tr = false)
  /\ (exists d s out pred tr,
         Discriminator.__init__ 1 1 4 true 0%nat = Ok (d, s)
         /\ Discriminator.call d [0; 64; 64; 1] [] false [] = Ok ((out, pred), tr)
         /\ called (Discriminator._conv_ill d) tr = true
         /\ called (Discriminator._conv_healty d) tr = false).
Proof.
  split.
  - destruct (Generator.__init__ 1 1 4 true 0%nat) as [[g s] | e] eqn:E;
      [| vm_compute in E; discriminate E].
    pose proof (Generator_call_accepted 1 1 4 true 0%nat g s 0 32 32 1 [] false E
                  eq_refl) as Hcall.
    exists g, s. do 2 eexists. split; [reflexivity |]. split; [exact Hcall |].
    apply (proj1 (proj2 (empty_batch_takes_ill_head 1))
             1 4 true 0%nat g s [0; 32; 32; 1] false _ _ E Hcall).
  - destruct (Discriminator.__init__ 1 1 4 true 0%nat) as [[d s] | e] eqn:E;
      [| vm_compute in E; discriminate E].
    pose proof (Discriminator_call_accepted 1 1 4 true 0%nat d s 0 64 64 1 [] false E
                  eq_refl) as Hcall.
    exists d, s. do 3 eexists. split; [reflexivity |]. split; [exact Hcall |].
    apply (proj2 (proj2 (empty_batch_takes_ill_head 1))
             1 4 true 0%nat d s [0; 64; 64; 1] false _ _ _ E Hcall).
Defined.

(** ** The discriminator *)

(** C5 (amended).  The shared encoder of the discriminator consists of nine
    conv blocks, in six groups of 1, 1, 2, 2, 2 and 1 blocks separated by five
    max-poolings, of filter widths nf, 2nf, 4nf, 4nf, 8nf, 8nf, 8nf, 8nf,
    16nf; a forward pass calls it once, and its result, of shape
    (batch, height / 32, width / 32, 16nf), is the input of the selected
    critic head and of the classifier branch alike. *)
Theorem encoder_layout ill nc nf bn o d s :
  Discriminator.__init__ ill nc nf bn o = Ok (d, s) ->
  layout (Discriminator._encoder d)
  = [ConvBlock nf; Pool; ConvBlock (nf * 2); Pool;
     ConvBlock (nf * 4); ConvBlock (nf * 4); Pool;
     ConvBlock (nf * 8); ConvBlock (nf * 8); Pool;
     ConvBlock (nf * 8); ConvBlock (nf * 8); Pool;
     ConvBlock (nf * 16)]
  /\ (forall x label training out pred tr,
         Discriminator.call d x label training [] = Ok ((out, pred), tr) ->
         exists n h w,
           x = [n; h; w; nc]
           /\ tr = discriminator_trace d n h w nc nf (all_ill ill label)).
Proof.
  intros Hd. split.
  - built Hd. reflexivity.
  - intros x label training out pred tr Hcall.
    destruct (Discriminator_call_returns _ _ _ _ _ _ _ _ _ _ _ _ _ Hd Hcall)
      as (n & h & w & -> & _ & _ & _ & ->).
    exists n, h, w. split; reflexivity.
Qed.

Lemma encoder_layout_witness :
  exists d s,
    Discriminator.__init__ 1 1 4 true 0%nat = Ok (d, s)
    /\ List.length (filter is_conv_block (layout (Discriminator._encoder d))) = 9%nat
    /\ List.length (filter is_pool (layout (Discriminator._encoder d))) = 5%nat.
Proof.
  destruct (Discriminator.__init__ 1 1 4 true 0%nat) as [[d s] | e] eqn:E;
    [| vm_compute in E; discriminate E].
  exists d, s. split; [reflexivity |].
  rewrite (proj1 (encoder_layout 1 1 4 true 0%nat d s E)).
  split; reflexivity.
Defined.

(** C5 (as stated) fails: the encoder of [Discriminator(1, 1, 4)] has nine
    conv blocks, not six, and their widths are not the eight listed. *)
Lemma encoder_layout_counterexample :
  exists d s,
    Discriminator.__init__ 1 1 4 true 0%nat = Ok (d, s)
    /\ List.length (filter is_conv_block (layout (Discriminator._encoder d))) = 9%nat
    /\ widths (layout (Discriminator._encoder d)) = [4; 8; 16; 16; 32; 32; 32; 32; 64]
    /\ widths (layout (Discriminator._encoder d)) <> [4; 8; 16; 16; 32; 32; 32; 64].
Proof.
  destruct (Discriminator.__init__ 1 1 4 true 0%nat) as [[d s] | e] eqn:E;
    [| vm_compute in E; discriminate E].
  exists d, s. split; [reflexivity |].
  vm_compute in E. injection E as <- _.
  repeat split. discriminate.
Qed.

(** C6.  [Discriminator.call] returns only on an image batch with
    [n_channels] channels whose height and width lie between 64 and 127,
    and does return on each of them; the score map it returns has one
    channel and the height and width of the input divided by 32 (rounded
    down, as the five poolings without padding do), and the logits have
    shape (batch, 2). *)
Theorem discriminator_output_shapes ill nc nf bn o d s x label training :
  Discriminator.__init__ ill nc nf bn o = Ok (d, s) ->
  (forall out pred tr,
      Discriminator.call d x label training [] = Ok ((out, pred), tr) ->
      exists n h w,
        x = [n; h; w; nc]
        /\ out = [n; h / 32; w / 32; 1]
        /\ pred = [n; 2])
  /\ (forall n h w,
         x = [n; h; w; nc] ->
         64 <= h < 128 -> 64 <= w < 128 ->
         exists tr,
           Discriminator.call d x label training []
           = Ok (([n; h / 32; w / 32; 1], [n; 2]), tr)).
Proof.
  intros Hd. split.
  - intros out pred tr Hcall.
    destruct (Discriminator_call_returns _ _ _ _ _ _ _ _ _ _ _ _ _ Hd Hcall)
      as (n & h & w & -> & _ & -> & -> & _).
    exists n, h, w. repeat split.
  - intros n h w -> Hh Hw. eexists.
    apply (Discriminator_call_accepted _ _ _ _ _ _ _ _ _ _ _ label training Hd).
    unfold discriminator_accepts.
    assert (Eh : h / 64 = 1) by arith. assert (Ew : w / 64 = 1) by arith.
    now rewrite Eh, Ew, Z.eqb_refl.
Qed.

Lemma discriminator_output_shapes_witness :
  exists d s,
    Discriminator.__init__ 1 1 4 true 0%nat = Ok (d, s)
    /\ exists tr,
         Discriminator.call d [2; 64; 64; 1] [1; 1] false []
         = Ok (([2; 64 / 32; 64 / 32; 1], [2; 2]), tr).
Proof.
  destruct (Discriminator.__init__ 1 1 4 true 0%nat) as [[d s] | e] eqn:E;
    [| vm_compute in E; discriminate E].
  exists d, s. split; [reflexivity |].
  apply (proj2 (discriminator_output_shapes 1 1 4 true 0%nat d s [2; 64; 64; 1]
                  [1; 1] false E) 2 64 64); [reflexivity | lia | lia].
Defined.

(** ** The two heads *)

Ltac enumerate H :=
  cbn in H; repeat (destruct H as [<- | H]); try contradiction.

(** C9.  In a generator, and in a discriminator, the "ill" and the "healthy"
    head have the same architecture, no layer object belongs to both, and
    no learnable parameter belongs to both. *)
Theorem heads_do_not_share ill nc nf bn o :
  (forall g s,
      Generator.__init__ ill nc nf bn o = Ok (g, s) ->
      architecture (Generator._conv7_ill g) = architecture (Generator._conv7_healty g)
      /\ (forall l l',
             In l (sublayers (Generator._conv7_ill g)) ->
             In l' (sublayers (Generator._conv7_healty g)) ->
             layer_id l <> layer_id l')
      /\ (forall p,
             In p (trainable_weights (Generator._conv7_ill g)) ->
             ~ In p (trainable_weights (Generator._conv7_healty g)))
      /\ List.length (trainable_weights (Generator._conv7_ill g)) = 6%nat
      /\ List.length (trainable_weights (Generator._conv7_healty g)) = 6%nat)
  /\ (forall d s,
         Discriminator.__init__ ill nc nf bn o = Ok (d, s) ->
         architecture (Discriminator._conv_ill d)
         = architecture (Discriminator._conv_healty d)
         /\ (forall l l',
                In l (sublayers (Discriminator._conv_ill d)) ->
                In l' (sublayers (Discriminator._conv_healty d)) ->
                layer_id l <> layer_id l')
         /\ (forall p,
                In p (trainable_weights (Discriminator._conv_ill d)) ->
                ~ In p (trainable_weights (Discriminator._conv_healty d)))
         /\ List.length (trainable_weights (Discriminator._conv_ill d)) = 9%nat
         /\ List.length (trainable_weights (Discriminator._conv_healty d)) = 9%nat).
Proof.
  split.
  - intros g s Hg. built Hg.
    split; [reflexivity |]. split; [| split; [| split; reflexivity]].
    + intros l l' Hl Hl'. enumerate Hl; enumerate Hl'; cbn; lia.
    + intros p Hp Hp'. enumerate Hp; cbn in Hp';
        repeat (destruct Hp' as [E | Hp']; [injection E; intros; lia |]);
        contradiction.
  - intros d s Hd. built Hd.
    split; [reflexivity |]. split; [| split; [| split; reflexivity]].
    + intros l l' Hl Hl'. enumerate Hl; enumerate Hl'; cbn; lia.
    + intros p Hp Hp'. enumerate Hp; cbn in Hp';
        repeat (destruct Hp' as [E | Hp']; [injection E; intros; lia |]);
        contradiction.
Qed.

Lemma heads_do_not_share_witness :
  exists g s,
    Generator.__init__ 1 1 4 true 0%nat = Ok (g, s)
    /\ architecture (Generator._conv7_ill g) = architecture (Generator._conv7_healty g)
    /\ forall p,
         In p (trainable_weights (Generator._conv7_ill g)) ->
         ~ In p (trainable_weights (Generator._conv7_healty g)).
Proof.
  destruct (Generator.__init__ 1 1 4 true 0%nat) as [[g s] | e] eqn:E;
    [| vm_compute in E; discriminate E].
  exists g, s. split; [reflexivity |].
  destruct (proj1 (heads_do_not_share 1 1 4 true 0%nat) g s E)
    as (Harch & _ & Hweights & _).
  split; assumption.
Defined.

(** ** The initializer properties *)

Section Cached.

Variable property : Build Initializer.
Variable cache : Self -> option Initializer.
Variable kind : InitializerKind.

Hypothesis first_access :
  forall s, cache s = None ->
  exists s1,
    property s = Ok (mkInitializer (fresh s) kind, s1)
    /\ cache s1 = Some (mkInitializer (fresh s) kind).

Hypothesis later_access :
  forall s i, cache s = Some i -> property s = Ok (i, s).

Lemma accesses_cached k s i :
  cache s = Some i -> accesses property k s = Ok (repeat i k, s).
Proof.
  intros Hc. induction k as [| k IH]; [reflexivity |].
  simpl. rewrite (bind_Ok _ _ _ _ _ (later_access s i Hc)).
  now rewrite (bind_Ok _ _ _ _ _ IH).
Qed.

Lemma caches_intro : caches property cache kind.
Proof.
  intros s k. destruct (cache s) as [j |] eqn:Hc.
  - exists j, s. split; [now apply accesses_cached |]. now repeat split.
  - destruct (first_access s Hc) as (s1 & H1 & Hc1).
    exists (mkInitializer (fresh s) kind), s1. split; [| now split].
    change (accesses property (S k) s)
      with (bind property
              (fun i => bind (accesses property k) (fun rest => ret (i :: rest))) s).
    rewrite (bind_Ok _ _ _ _ _ H1).
    now rewrite (bind_Ok _ _ _ _ _ (accesses_cached k s1 _ Hc1)).
Qed.

End Cached.

(** C8.  Each of the four properties constructs its initializer at the
    first access, when the field is still empty, and stores it; every later
    access returns that same instance and changes nothing. *)
Theorem initializers_cached :
  caches Generator.kernel_initializer _kernel_initializer HeNormal
  /\ caches Generator.bias_initializer _bias_initializer Zeros
  /\ caches Discriminator.kernel_initializer _kernel_initializer GlorotNormal
  /\ caches Discriminator.bias_initializer _bias_initializer Zeros.
Proof.
  repeat split; apply caches_intro;
    try (intros [o bn ki bi] Hc; simpl in Hc; subst; eexists; split; reflexivity);
    intros [o bn ki bi] i Hc; simpl in Hc; subst; reflexivity.
Qed.

(** The second and third access of a new generator return the instance the
    first one constructed. *)
Example kernel_initializer_thrice :
  accesses Generator.kernel_initializer 3 (DeScarGANModel.__init__ true 7%nat)
  = Ok (repeat (mkInitializer 7%nat HeNormal) 3,
        mkSelf 8%nat true (Some (mkInitializer 7%nat HeNormal)) None).
Proof. reflexivity. Qed.

(** ** What can be built, and the scenarios of the documentation *)

(** The blocks of [conv], counted: no convolution without batch
    normalization, no activation with it. *)
Lemma conv_block_census input_shape filters kernel_size momentum o :
  (forall P : DeScarGANModel.properties,
      match DeScarGANModel.conv input_shape filters kernel_size momentum
              k_layers_ReLU (DeScarGANModel.__init__ false o) with
      | Ok (block, _) =>
          count_layers is_convolution block = 0%nat
          /\ count_layers is_batch_normalization block = 0%nat
          /\ count_layers is_activation block = 1%nat
      | Raise _ => False
      end)
  /\ (forall activation_fn,
         match DeScarGANModel.conv (P := Discriminator.model) input_shape filters
                 kernel_size momentum activation_fn
                 (DeScarGANModel.__init__ true o) with
         | Ok (block, _) =>
             count_layers is_convolution block = 1%nat
             /\ count_layers is_batch_normalization block = 1%nat
             /\ count_layers is_activation block = 0%nat
         | Raise _ => False
         end).
Proof. split; intros; cbn; repeat split. Qed.

(** With [batch_norm=False] neither constructor returns: the last block of
    a head calls [k.activations.tanh()], respectively [tf.identity()]. *)
Lemma no_model_without_batch_norm ill nc nf o :
  Generator.__init__ ill nc nf false o = Raise TypeError
  /\ Discriminator.__init__ ill nc nf false o = Raise TypeError.
Proof. split; reflexivity. Qed.

Example generator_scenario :
  exists g s tr_ill tr_healthy,
    Generator.__init__ 1 1 4 true 0%nat = Ok (g, s)
    /\ Generator.call g [2; 32; 32; 1] [1; 1] false [] = Ok ([2; 32; 32; 1], tr_ill)
    /\ called (Generator._conv7_ill g) tr_ill = true
    /\ Generator.call g [2; 32; 32; 1] [1; 0] false []
       = Ok ([2; 32; 32; 1], tr_healthy)
    /\ called (Generator._conv7_healty g) tr_healthy = true.
Proof.
  destruct (Generator.__init__ 1 1 4 true 0%nat) as [[g s] | e] eqn:E;
    [| vm_compute in E; discriminate E].
  exists g, s. do 2 eexists. split; [reflexivity |].
  rewrite (Generator_call_accepted 1 1 4 true 0%nat g s 2 32 32 1 [1; 1] false E
             eq_refl).
  rewrite (Generator_call_accepted 1 1 4 true 0%nat g s 2 32 32 1 [1; 0] false E
             eq_refl).
  split; [reflexivity |]. split; [| split; [reflexivity |]].
  - apply (Generator_heads_called 1 1 4 true 0%nat g s 2 32 32 true E).
  - apply (Generator_heads_called 1 1 4 true 0%nat g s 2 32 32 false E).
Qed.

Example discriminator_scenario :
  exists d s tr,
    Discriminator.__init__ 1 1 4 true 0%nat = Ok (d, s)
    /\ Discriminator.call d [2; 64; 64; 1] [1; 1] false []
       = Ok (([2; 2; 2; 1], [2; 2]), tr).
Proof.
  destruct (Discriminator.__init__ 1 1 4 true 0%nat) as [[d s] | e] eqn:E;
    [| vm_compute in E; discriminate E].
  exists d, s. eexists. split; [reflexivity |].
  rewrite (Discriminator_call_accepted 1 1 4 true 0%nat d s 2 64 64 1 [1; 1] false E
             eq_refl).
  reflexivity.
Qed.

(** * Further properties *)

(** ** deconv and dense *)

(** X1.  [deconv] with its default strategy returns, whatever the
    batch-normalization flag of the model says, an upsampling, a convolution
    with bias and library-default initializers, a batch normalization and
    the activation; it leaves the fields of the model untouched, and the
    block doubles height and width and yields [filters] channels for an
    input of any depth. *)
Theorem deconv_upsampling_block input_shape filters kernel_size strides padding
    momentum (s : Self) :
  exists block s',
    DeScarGANModel.deconv input_shape filters true kernel_size strides padding
      momentum k_layers_ReLU s = Ok (block, s')
    /\ _batch_norm s' = _batch_norm s
    /\ _kernel_initializer s' = _kernel_initializer s
    /\ _bias_initializer s' = _bias_initializer s
    /\ count_layers is_convolution block = 1%nat
    /\ count_layers has_bias block = 1%nat
    /\ count_layers is_batch_normalization block = 1%nat
    /\ count_layers is_activation block = 1%nat
    /\ Forall (initialized_by (mkInitializer 0%nat Zeros) (mkInitializer 0%nat Zeros))
              (filter has_bias (sublayers block))
    /\ forall n h w c, call_layer block [n; h; w; c] = Ok [n; 2 * h; 2 * w; filters].
Proof.
  destruct s as [o bn ki bi]. do 2 eexists. split; [reflexivity |].
  cbn. repeat split.
  - repeat constructor.
  - intros n h w c. now rewrite !same_length.
Qed.

(** X2.  The two strategies of [deconv] agree on shapes for the default
    kernel, stride and padding: on an input of the declared depth both give
    twice the height and width and [filters] channels.  The transposed
    convolution, being the first layer of its block, rejects any other
    depth. *)
Theorem deconv_strategies_agree c filters momentum (s : Self) :
  exists upsampling transposed s1 s2,
    DeScarGANModel.deconv [None; None; Some c] filters true 4 2 SAME momentum
      k_layers_ReLU s = Ok (upsampling, s1)
    /\ DeScarGANModel.deconv [None; None; Some c] filters false 4 2 SAME momentum
         k_layers_ReLU s = Ok (transposed, s2)
    /\ (forall n h w,
           call_layer upsampling [n; h; w; c] = Ok [n; 2 * h; 2 * w; filters]
           /\ call_layer transposed [n; h; w; c] = Ok [n; 2 * h; 2 * w; filters])
    /\ (forall n h w c',
           c' <> c -> call_layer transposed [n; h; w; c'] = Raise ValueError).
Proof.
  destruct s as [o bn ki bi]. do 4 eexists.
  split; [reflexivity |]. split; [reflexivity |]. split.
  - intros n h w. split.
    + cbn. now rewrite !same_length.
    + cbn -[Z.mul]. rewrite Z.eqb_refl. cbn -[Z.mul].
      now rewrite (Z.mul_comm h), (Z.mul_comm w).
  - intros n h w c' Hc. cbn.
    destruct (Z.eqb_spec c c'); [congruence | reflexivity].
Qed.

Lemma deconv_strategies_agree_witness :
  exists upsampling transposed s1 s2,
    DeScarGANModel.deconv [None; None; Some 32] 16 true 4 2 SAME
      DeScarGANModel.default_momentum k_layers_ReLU
      (DeScarGANModel.__init__ true 0%nat) = Ok (upsampling, s1)
    /\ DeScarGANModel.deconv [None; None; Some 32] 16 false 4 2 SAME
         DeScarGANModel.default_momentum k_layers_ReLU
         (DeScarGANModel.__init__ true 0%nat) = Ok (transposed, s2)
    /\ call_layer upsampling [2; 8; 8; 32] = Ok [2; 16; 16; 16]
    /\ call_layer transposed [2; 8; 8; 32] = Ok [2; 16; 16; 16]
    /\ call_layer transposed [2; 8; 8; 3] = Raise ValueError.
Proof.
  destruct (deconv_strategies_agree 32 16 DeScarGANModel.default_momentum
              (DeScarGANModel.__init__ true 0%nat))
    as (u & t & s1 & s2 & Hu & Ht & Hshape & Hraise).
  exists u, t, s1, s2. split; [exact Hu |]. split; [exact Ht |].
  split; [apply (Hshape 2 8 8) |]. split; [apply (Hshape 2 8 8) |].
  apply Hraise. discriminate.
Defined.

(** X3.  [deconv] and [dense] call [activation_fn()] in every configuration,
    so with an activation given as a plain function ([k.activations.tanh],
    [tf.identity]) they raise [TypeError], whatever the other arguments and
    the state of the model. *)
Theorem deconv_dense_need_a_layer_class activation_fn (s : Self) :
  activation_fn <> k_layers_ReLU ->
  (forall input_shape filters use_upsample kernel_size strides padding momentum,
      DeScarGANModel.deconv input_shape filters use_upsample kernel_size strides
        padding momentum activation_fn s = Raise TypeError)
  /\ (forall input_shape units momentum,
         DeScarGANModel.dense input_shape units momentum activation_fn s
         = Raise TypeError).
Proof.
  intros Ha. destruct s as [o bn ki bi].
  split.
  - intros input_shape filters [|] kernel_size strides padding momentum;
      destruct activation_fn; (congruence || reflexivity).
  - intros input_shape units momentum.
    destruct activation_fn; (congruence || reflexivity).
Qed.

Lemma deconv_dense_need_a_layer_class_witness :
  DeScarGANModel.deconv [None; None; Some 8] 4 true 4 2 SAME
    DeScarGANModel.default_momentum k_activations_tanh
    (DeScarGANModel.__init__ true 0%nat) = Raise TypeError
  /\ DeScarGANModel.dense [Some 8] 4 DeScarGANModel.default_momentum tf_identity
       (DeScarGANModel.__init__ false 0%nat) = Raise TypeError.
Proof.
  split.
  - apply (proj1 (deconv_dense_need_a_layer_class k_activations_tanh
                    (DeScarGANModel.__init__ true 0%nat) ltac:(discriminate))).
  - apply (proj2 (deconv_dense_need_a_layer_class tf_identity
                    (DeScarGANModel.__init__ false 0%nat) ltac:(discriminate))).
Defined.


(** ** conv and the initializers of the model *)

(** X5.  With batch normalization on, [conv] takes its two initializers
    from the properties of the model: afterwards both fields are set to the
    very instances the new convolution holds, and a field that was set
    before keeps its instance.  With batch normalization off it never reads
    the properties, so no initializer is ever constructed. *)
Theorem conv_initializers input_shape filters kernel_size momentum activation_fn
    (s : Self) :
  (_batch_norm s = true ->
   exists i c b ki bi s',
     DeScarGANModel.conv (P := Generator.model) input_shape filters kernel_size
       momentum activation_fn s
     = Ok (Sequential i
             [Conv2D c (Some input_shape) filters kernel_size 1 SAME
                (Some ki) (Some bi) false;
              BatchNormalization b momentum], s')
     /\ _kernel_initializer s' = Some ki
     /\ _bias_initializer s' = Some bi
     /\ (forall k, _kernel_initializer s = Some k -> ki = k)
     /\ (forall k, _bias_initializer s = Some k -> bi = k)
     /\ (_kernel_initializer s = None -> init_kind ki = HeNormal)
     /\ (_bias_initializer s = None -> init_kind bi = Zeros))
  /\ (_batch_norm s = false ->
      forall (P : DeScarGANModel.properties) block s',
        DeScarGANModel.conv input_shape filters kernel_size momentum
          activation_fn s = Ok (block, s') ->
        _kernel_initializer s' = _kernel_initializer s
        /\ _bias_initializer s' = _bias_initializer s).
Proof.
  destruct s as [o bn ki bi]. cbn [_batch_norm _kernel_initializer _bias_initializer].
  split; intros ->.
  - destruct ki as [ki |], bi as [bi |]; do 6 eexists;
      (split; [reflexivity |]); cbn; repeat split; congruence.
  - intros P block s'. destruct activation_fn; cbn; [| discriminate ..].
    intros [= _ <-]. split; reflexivity.
Qed.

Lemma conv_initializers_witness :
  exists i c b ki bi s',
    DeScarGANModel.conv (P := Generator.model) [None; None; Some 3] 4 3
      DeScarGANModel.default_momentum k_layers_ReLU
      (mkSelf 9%nat true (Some (mkInitializer 0%nat HeNormal)) None)
    = Ok (Sequential i
            [Conv2D c (Some [None; None; Some 3]) 4 3 1 SAME (Some ki) (Some bi) false;
             BatchNormalization b DeScarGANModel.default_momentum], s')
    /\ ki = mkInitializer 0%nat HeNormal.
Proof.
  destruct (proj1 (conv_initializers [None; None; Some 3] 4 3
                     DeScarGANModel.default_momentum k_layers_ReLU
                     (mkSelf 9%nat true (Some (mkInitializer 0%nat HeNormal)) None))
              eq_refl)
    as (i & c & b & ki & bi & s' & Hconv & _ & _ & Hk & _).
  exists i, c, b, ki, bi, s'. split; [exact Hconv |]. now apply Hk.
Defined.

(** ** The shapes of a conv block *)




(** X12.  With batch normalization off, the block [conv] returns for a layer
    class is no convolution at all: it returns every input, of any rank and
    depth, with its shape unchanged, whatever [input_shape] and [filters]
    were asked for. *)
Theorem conv_block_without_batch_norm_keeps_shapes (P : DeScarGANModel.properties)
    input_shape filters kernel_size momentum (s : Self) :
  _batch_norm s = false ->
  exists block s',
    DeScarGANModel.conv input_shape filters kernel_size momentum k_layers_ReLU s
    = Ok (block, s')
    /\ forall x, call_layer block x = Ok x.
Proof.
  destruct s as [o bn ki bi]. cbn [_batch_norm]. intros ->.
  do 2 eexists. split; [reflexivity |]. intros x. reflexivity.
Qed.

Lemma conv_block_without_batch_norm_keeps_shapes_witness :
  exists block s',
    DeScarGANModel.conv (P := Generator.model) [None; None; Some 3] 64 3
      DeScarGANModel.default_momentum k_layers_ReLU (DeScarGANModel.__init__ false 0%nat)
    = Ok (block, s')
    /\ call_layer block [2; 32; 32; 3] = Ok [2; 32; 32; 3].
Proof.
  destruct (conv_block_without_batch_norm_keeps_shapes Generator.model
              [None; None; Some 3] 64 3 DeScarGANModel.default_momentum
              (DeScarGANModel.__init__ false 0%nat) eq_refl)
    as (block & s' & Hconv & Hshape).
  exists block, s'. split; [exact Hconv |]. apply Hshape.
Defined.

(** ** Whole models *)

Lemma nodupb_sound l : nodupb l = true -> NoDup l.
Proof.
  induction l as [| i rest IH]; simpl; [constructor |].
  intros H. apply andb_true_iff in H as [Hi Hrest].
  constructor; [| now apply IH].
  intros Hin. apply negb_true_iff in Hi.
  assert (existsb (Nat.eqb i) rest = true); [| congruence].
  apply existsb_exists. exists i. split; [assumption | apply Nat.eqb_refl].
Qed.

Lemma NoDup_shift (o : nat) l : NoDup l -> NoDup (map (fun k => (k + o)%nat) l).
Proof.
  induction 1 as [| k l Hk _ IH]; simpl; constructor; [| assumption].
  intros Hin. apply in_map_iff in Hin as (k' & Hk' & Hin).
  assert (k' = k) by lia. now subst.
Qed.

Lemma Forall_shift (o hi : nat) l :
  forallb (fun k => (k <? hi)%nat) l = true ->
  Forall (fun i => (o <= i < hi + o)%nat) (map (fun k => (k + o)%nat) l).
Proof.
  intros H. apply Forall_forall. intros i Hi.
  apply in_map_iff in Hi as (k & <- & Hk).
  rewrite forallb_forall in H. specialize (H k Hk). apply Nat.ltb_lt in H. lia.
Qed.

(** X6.  A constructor never uses a layer object twice: the layer objects of
    a generator are 77 objects with pairwise different identities, those of
    a discriminator 67, all created by the constructor itself (their
    identities lie between the allocator's position before and after). *)
Theorem model_objects_distinct ill nc nf bn o :
  (forall g s,
      Generator.__init__ ill nc nf bn o = Ok (g, s) ->
      NoDup (objects (generator_blocks g))
      /\ List.length (objects (generator_blocks g)) = 77%nat
      /\ Forall (fun i => (o <= i < fresh s)%nat) (objects (generator_blocks g)))
  /\ (forall d s,
         Discriminator.__init__ ill nc nf bn o = Ok (d, s) ->
         NoDup (objects (discriminator_blocks d))
         /\ List.length (objects (discriminator_blocks d)) = 67%nat
         /\ Forall (fun i => (o <= i < fresh s)%nat)
                   (objects (discriminator_blocks d))).
Proof.
  split.
  - intros g s Hg. built Hg. cbn.
    match goal with
    | |- NoDup ?l /\ _ =>
        let f := eval pattern o in l in
        match f with
        | ?F o =>
            let offsets := eval cbn in (F 0%nat) in
            change l with (map (fun k => (k + o)%nat) offsets)
        end
    end.
    split; [apply NoDup_shift, nodupb_sound; vm_compute; reflexivity |].
    split; [reflexivity |].
    apply (Forall_shift o 79).
    vm_compute. reflexivity.
  - intros d s Hd. built Hd. cbn.
    match goal with
    | |- NoDup ?l /\ _ =>
        let f := eval pattern o in l in
        match f with
        | ?F o =>
            let offsets := eval cbn in (F 0%nat) in
            change l with (map (fun k => (k + o)%nat) offsets)
        end
    end.
    split; [apply NoDup_shift, nodupb_sound; vm_compute; reflexivity |].
    split; [reflexivity |].
    apply (Forall_shift o 69).
    vm_compute. reflexivity.
Qed.

(** X7.  All the convolutions [conv] creates for a model hold one and the
    same kernel-initializer instance and one and the same bias-initializer
    instance, the two objects created first of all (He normal and zeros for
    a generator, Glorot normal and zeros for a discriminator), which the
    fields of the model hold afterwards; the three convolutions of the
    upsampling blocks of a generator are left to the defaults of the
    library. *)
Theorem model_initializers_shared ill nc nf bn o :
  (forall g s,
      Generator.__init__ ill nc nf bn o = Ok (g, s) ->
      let ki := mkInitializer o HeNormal in
      let bi := mkInitializer (S o) Zeros in
      Forall (initialized_by ki bi) (all_layers (generator_blocks g))
      /\ _kernel_initializer s = Some ki
      /\ _bias_initializer s = Some bi
      /\ count_in is_convolution (generator_blocks g) = 19%nat
      /\ count_in has_bias (generator_blocks g) = 3%nat)
  /\ (forall d s,
         Discriminator.__init__ ill nc nf bn o = Ok (d, s) ->
         let ki := mkInitializer o GlorotNormal in
         let bi := mkInitializer (S o) Zeros in
         Forall (initialized_by ki bi) (all_layers (discriminator_blocks d))
         /\ _kernel_initializer s = Some ki
         /\ _bias_initializer s = Some bi
         /\ count_in is_convolution (discriminator_blocks d) = 17%nat
         /\ count_in has_bias (discriminator_blocks d) = 0%nat).
Proof.
  split.
  - intros g s Hg. built Hg. cbn. repeat split. repeat constructor.
  - intros d s Hd. built Hd. cbn. repeat split. repeat constructor.
Qed.

Lemma model_initializers_shared_witness :
  exists g s,
    Generator.__init__ 1 1 4 true 5%nat = Ok (g, s)
    /\ Forall (initialized_by (mkInitializer 5%nat HeNormal) (mkInitializer 6%nat Zeros))
              (all_layers (generator_blocks g)).
Proof.
  destruct (Generator.__init__ 1 1 4 true 5%nat) as [[g s] | e] eqn:E;
    [| vm_compute in E; discriminate E].
  exists g, s. split; [reflexivity |].
  apply (proj1 (model_initializers_shared 1 1 4 true 5%nat) g s E).
Defined.

(** X8.  No block made by [conv] in a model contains an activation.  The only
    activations of a generator are the three of its upsampling blocks, and
    neither output head contains one (no tanh is applied to the generated
    image); the only activation of a discriminator is the one of its
    classifier. *)
Theorem model_activations ill nc nf bn o :
  (forall g s,
      Generator.__init__ ill nc nf bn o = Ok (g, s) ->
      count_in is_activation (generator_blocks g) = 3%nat
      /\ count_in is_activation
           [Generator._up3 g; Generator._up2 g; Generator._up1 g] = 3%nat
      /\ count_layers is_activation (Generator._conv7_ill g) = 0%nat
      /\ count_layers is_activation (Generator._conv7_healty g) = 0%nat
      /\ count_in is_batch_normalization (generator_blocks g) = 19%nat)
  /\ (forall d s,
         Discriminator.__init__ ill nc nf bn o = Ok (d, s) ->
         count_in is_activation (discriminator_blocks d) = 1%nat
         /\ count_layers is_activation (Discriminator._linearclass d) = 1%nat
         /\ count_in is_batch_normalization (discriminator_blocks d) = 17%nat).
Proof.
  split.
  - intros g s Hg. built Hg. repeat split.
  - intros d s Hd. built Hd. repeat split.
Qed.

Lemma model_activations_witness :
  exists g s,
    Generator.__init__ 1 1 4 true 0%nat = Ok (g, s)
    /\ count_layers is_activation (Generator._conv7_ill g) = 0%nat.
Proof.
  destruct (Generator.__init__ 1 1 4 true 0%nat) as [[g s] | e] eqn:E;
    [| vm_compute in E; discriminate E].
  exists g, s. split; [reflexivity |].
  apply (proj1 (model_activations 1 1 4 true 0%nat) g s E).
Defined.

Lemma model_objects_distinct_witness :
  exists d s,
    Discriminator.__init__ 1 1 4 true 0%nat = Ok (d, s)
    /\ NoDup (objects (discriminator_blocks d)).
Proof.
  destruct (Discriminator.__init__ 1 1 4 true 0%nat) as [[d s] | e] eqn:E;
    [| vm_compute in E; discriminate E].
  exists d, s. split; [reflexivity |].
  apply (proj2 (model_objects_distinct 1 1 4 true 0%nat) d s E).
Defined.

(** ** What the forward passes raise *)

Lemma tf_concat_raises a b e : tf_concat a b = Raise e -> e = InvalidArgumentError.
Proof.
  unfold tf_concat. destruct (rev a), (rev b); try congruence.
  destruct (dims_eqb _ _); congruence.
Qed.

(** X9.  [Generator.call] raises the dimension-mismatch error of TensorFlow
    when the image tensor is not of rank 4, when the number of labels is not
    the batch size, and when a height or width leaves a remainder of 2 to 7
    modulo 8 (a skip concatenation fails); it raises the input-compatibility
    error of Keras when the number of channels is not [n_channels]. *)
Theorem generator_call_raises ill nc nf bn o g s label training :
  Generator.__init__ ill nc nf bn o = Ok (g, s) ->
  (forall x, List.length x <> 4%nat ->
             Generator.call g x label training [] = Raise InvalidArgumentError)
  /\ (forall n h w c,
         n <> Z.of_nat (List.length label) ->
         Generator.call g [n; h; w; c] label training [] = Raise InvalidArgumentError)
  /\ (forall n h w c,
         n = Z.of_nat (List.length label) -> c <> nc ->
         Generator.call g [n; h; w; c] label training [] = Raise ValueError)
  /\ (forall n h w,
         n = Z.of_nat (List.length label) -> 1 < h mod 8 \/ 1 < w mod 8 ->
         Generator.call g [n; h; w; nc] label training []
         = Raise InvalidArgumentError).
Proof.
  intros Hg. built Hg.
  unfold Generator.call, tf_one_hot.
  cbn [Generator._down0 Generator._down1 Generator._down2 Generator._down3
       Generator._up3 Generator._up2 Generator._up1 Generator._conv5 Generator._conv6
       Generator._conv7_ill Generator._conv7_healty Generator._ill_label].
  split; [| split; [| split]].
  - intros x Hx.
    destruct x as [| n [| h [| w [| c [| c' rest]]]]];
      try (norm; reflexivity); try (exfalso; apply Hx; reflexivity);
      (cbn -[tf_concat Z.mul]; rewrite bind_lift;
       destruct (tf_concat _ _) eqn:E;
       [apply tf_concat_length in E; simpl in E; lia
       | now rewrite (tf_concat_raises _ _ _ E)]).
  - intros n h w c Hn. repeat step. reflexivity.
  - intros n h w c Hn Hc. repeat step. reflexivity.
  - intros n h w Hn Hsize.
    repeat (repeat step; try split_test); try reflexivity.
    exfalso. destruct Hsize; arith.
Qed.

Lemma generator_call_raises_witness :
  exists g s,
    Generator.__init__ 1 1 4 true 0%nat = Ok (g, s)
    /\ Generator.call g [2; 32; 32] [1; 1] false [] = Raise InvalidArgumentError
    /\ Generator.call g [2; 32; 32; 1] [1] false [] = Raise InvalidArgumentError
    /\ Generator.call g [2; 32; 32; 3] [1; 1] false [] = Raise ValueError
    /\ Generator.call g [2; 36; 32; 1] [1; 1] false [] = Raise InvalidArgumentError.
Proof.
  destruct (Generator.__init__ 1 1 4 true 0%nat) as [[g s] | e] eqn:E;
    [| vm_compute in E; discriminate E].
  exists g, s. split; [reflexivity |].
  destruct (generator_call_raises 1 1 4 true 0%nat g s [1; 1] false E)
    as (Hrank & _ & Hchannels & Hsize).
  destruct (generator_call_raises 1 1 4 true 0%nat g s [1] false E)
    as (_ & Hlabels & _).
  split; [apply Hrank; discriminate |].
  split; [apply Hlabels; discriminate |].
  split; [apply Hchannels; [reflexivity | discriminate] |].
  apply Hsize; [reflexivity | left; reflexivity].
Defined.


